(** * FTD onboarding / deletion client: the polling loop and its callers

    Shallow embedding of [python/ftd.py] and [python/poll_service.py].

    The two files talk to the outside world through four calls only:
    [requests.post], [requests.get], [time.sleep] and [print].  The embedding
    threads a trace of these calls through every function; the remote service
    is an oracle that answers the n-th request of the process.  Python
    exceptions are the [Raise] outcome of a computation. *)

From Stdlib Require Import ZArith Lia.
From Stdlib Require Import Floats.SpecFloat.
From stdpp Require Import base option list gmap strings pretty.

Set Warnings "-register-all".
Open Scope Z_scope.

(** ** Python values

    What [response.json()] can hand back, and so what the untyped code
    may hold in [response], [status_data], [current_status] and
    [polling_url].  [VNone] is Python's [None], which is also what
    [dict.get] answers for a missing key. *)

Inductive value : Type :=
| VNone
| VBool (b : bool)
| VInt (z : Z)
| VFloat (f : spec_float)
| VStr (s : string)
| VList (l : list value)
| VDict (d : gmap string value).

(** Truth value of an object, as [not x] and [if x] compute it. *)
Definition truthy (v : value) : bool :=
  match v with
  | VNone => false
  | VBool b => b
  | VInt z => negb (z =? 0)
  | VFloat f => match f with S754_zero _ => false | _ => true end
  | VStr s => negb (String.eqb s "")
  | VList l => match l with [] => false | _ :: _ => true end
  | VDict d => negb (Nat.eqb (size d) 0)
  end.

(** [v == s] for a string literal [s]: only a string compares equal to it. *)
Definition eq_str (v : value) (s : string) : bool :=
  match v with
  | VStr s' => String.eqb s' s
  | _ => false
  end.

(** [v in [s1, s2, ...]] for a list of string literals. *)
Definition in_strs (v : value) (l : list string) : bool :=
  existsb (eq_str v) l.

(** [x in [c1, c2, ...]] for a list of integer literals. *)
Definition in_ints (x : Z) (l : list Z) : bool :=
  existsb (Z.eqb x) l.

(** ** Exceptions *)

Inductive exn : Type :=
| CDOError (msg : string)            (* class CDOError(Exception), ftd.py *)
| RequestException (msg : string)    (* requests.exceptions.RequestException *)
| JSONDecodeError                    (* raised by response.json() *)
| AttributeError                     (* a method looked up on an object without it *)
| ValueError (msg : string)          (* time.sleep on a negative length *)
| OverflowError                      (* time.sleep on a length beyond its clock *)
| OSError.                           (* time.sleep refused by the operating system *)

(** [isinstance(e, requests.exceptions.RequestException)]: the decode error
    of [response.json()] derives from it. *)
Definition is_RequestException (e : exn) : bool :=
  match e with
  | RequestException _ | JSONDecodeError => true
  | _ => false
  end.

(** ** HTTP *)

Inductive method : Type := GET | POST.

Record request : Type := mkRequest {
  req_method : method;
  req_url : value;
  req_headers : gmap string string;
  req_json : option value
}.

Record response : Type := mkResponse {
  status_code : Z;
  text : string;               (* response.text *)
  json : option value          (* response.json(); None when the body does not parse *)
}.

Inductive reply : Type :=
| Responds (r : response)
| Fails (msg : string).        (* the call raises a RequestException *)

(** The remote service and the network: the answer to the [n]-th request
    (counted from 0) of the process. *)
Definition server : Type := nat -> request -> reply.

(** ** What the process prints

    One constructor per [print] call of the source; the fields are the
    values interpolated into the line. *)

Inductive output : Type :=
| OutNoOperation
| OutInitiatingOnboarding
| OutInitiatingDeletion
| OutInitialResponse (resp : value)
| OutStartingPolling
| OutCurrentStatus (current_status : value) (attempt max_attempts : Z)
| OutPollingTimedOut
| OutFinalStatus (final_status : value)
| OutError (msg : string)
| OutNetworkError (e : exn)
| OutUnexpectedError (e : exn)
| OutHelp                            (* the help text argparse prints *)
| OutUsage.                          (* the usage error argparse prints *)

(** ** Traces *)

Inductive event : Type :=
| Sent (rq : request) (rp : reply)
| Slept (secs : Z)
| Printed (o : output).

Definition trace : Type := list event.

Definition is_sent (e : event) : bool :=
  match e with Sent _ _ => true | _ => false end.

(** Number of requests issued so far. *)
Definition sent_count (t : trace) : nat := length (List.filter is_sent t).

(** The GET requests of a trace, in order. *)
Definition gets (t : trace) : list request :=
  omap (fun e => match e with
                 | Sent rq _ => match req_method rq with GET => Some rq | POST => None end
                 | _ => None
                 end) t.

(** The delays of a trace, in order. *)
Definition delays (t : trace) : list Z :=
  omap (fun e => match e with Slept d => Some d | _ => None end) t.

(** ** Computations *)

Inductive result (A : Type) : Type :=
| Return (a : A)
| Raise (e : exn).
Arguments Return {A} a.
Arguments Raise {A} e.

Definition M (A : Type) : Type := server -> trace -> result A * trace.

Definition ret {A} (a : A) : M A := fun _ t => (Return a, t).

Definition raise {A} (e : exn) : M A := fun _ t => (Raise e, t).

Definition bind {A B} (c : M A) (k : A -> M B) : M B :=
  fun srv t =>
    match c srv t with
    | (Return a, t') => k a srv t'
    | (Raise e, t') => (Raise e, t')
    end.

Declare Scope py_scope.
Delimit Scope py_scope with py.
Notation "x <- c ;; k" := (bind c (fun x => k))
  (at level 100, c at next level, right associativity) : py_scope.
Notation "c ;; k" := (bind c (fun _ => k))
  (at level 100, right associativity) : py_scope.
Open Scope py_scope.

(** *** The four calls into the world *)

Definition send (rq : request) : M response :=
  fun srv t =>
    let rp := srv (sent_count t) rq in
    match rp with
    | Responds r => (Return r, t ++ [Sent rq rp])
    | Fails msg => (Raise (RequestException msg), t ++ [Sent rq rp])
    end.

Definition requests_get (url : value) (headers : gmap string string) : M response :=
  send (mkRequest GET url headers None).

Definition requests_post (url : value) (headers : gmap string string)
    (body : option value) : M response :=
  send (mkRequest POST url headers body).

(** [time.sleep(secs)] keeps its clock in 64-bit nanoseconds: a length of
    [sleep_limit] seconds or more does not fit the sleep. *)
Definition sleep_limit : Z := 9223372036.

(** [time.sleep(secs)]: the interpreter refuses a negative length with a
    [ValueError] and a length beyond [sleep_limit] with an [OverflowError];
    at [sleep_limit] itself the operating system refuses the sleep
    ([OSError]).  Any other length is slept and recorded. *)
Definition time_sleep (secs : Z) : M unit :=
  fun _ t =>
    if secs <? 0 then (Raise (ValueError "sleep length must be non-negative"), t)
    else if secs <? sleep_limit then (Return tt, t ++ [Slept secs])
    else if secs =? sleep_limit then (Raise OSError, t)
    else (Raise OverflowError, t).

Definition print (o : output) : M unit :=
  fun _ t => (Return tt, t ++ [Printed o]).

(** *** Methods of the objects involved *)

(** [response.json()] *)
Definition response_json (r : response) : M value :=
  match json r with
  | Some v => ret v
  | None => raise JSONDecodeError
  end.

(** [obj.get(key)]: a dict answers, with [None] for a missing key;
    nothing else that JSON decodes to has the method. *)
Definition value_get (obj : value) (key : string) : M value :=
  match obj with
  | VDict d => ret (default VNone (d !! key))
  | _ => raise AttributeError
  end.

(** *** [for i in range(stop)] with a body that may [return] *)

Inductive flow (A : Type) : Type :=
| Next                 (* fell off the end of the body *)
| Returned (a : A).    (* executed [return a] *)
Arguments Next {A}.
Arguments Returned {A} a.

Fixpoint for_from {A} (n : nat) (i : Z) (body : Z -> M (flow A)) : M (flow A) :=
  match n with
  | O => ret Next
  | S n' =>
      r <- body i ;;
      match r with
      | Next => for_from n' (i + 1) body
      | Returned a => ret (Returned a)
      end
  end.

Definition for_range {A} (stop : Z) (body : Z -> M (flow A)) : M (flow A) :=
  for_from (Z.to_nat stop) 0 body.

(** ** python/ftd.py *)

Module Ftd.

(** lines 10-62 *)
Definition initiate_ftd_onboarding_using_ztp
    (base_url token device_name serial_number access_policy_uuid admin_password : string)
    : M value :=
  let headers : gmap string string :=
    list_to_map [("Authorization", "Bearer " +:+ token);
                 ("Content-Type", "application/json")] in
  let payload : value :=
    VDict (list_to_map [("name", VStr device_name);
                        ("serialNumber", VStr serial_number);
                        ("fmcAccessPolicyUid", VStr access_policy_uuid);
                        ("licenses", VList [VStr "BASE"]);
                        ("adminPassword", VStr admin_password)]) in
  response <- requests_post
                (VStr (base_url +:+ "/api/rest/v1/inventory/devices/ftds/ztp"))
                headers (Some payload) ;;
  if negb (status_code response =? 202) then
    raise (CDOError ("Failed to create ZTP request: " +:+ text response))
  else
    response_json response.

(** lines 64-92 *)
Definition delete_ftd_device (base_url token device_uuid : string) : M value :=
  let headers : gmap string string :=
    list_to_map [("Authorization", "Bearer " +:+ token)] in
  response <- requests_post
                (VStr (base_url +:+ "/api/rest/v1/inventory/devices/ftds/cdfmcManaged/"
                                +:+ device_uuid +:+ "/delete"))
                headers None ;;
  if negb (status_code response =? 202) then
    raise (CDOError ("Failed to delete FTD device: " +:+ text response))
  else
    response_json response.

(** The namespace [parse_arguments] returns (lines 94-129).  [operation] is
    [None] when no subcommand was given; the options of the subcommand
    come with it. *)
Inductive command : Type :=
| Onboard (device_name serial_number policy_uuid admin_password : string)
| Delete (device_uuid : string).

Record namespace : Type := mkNamespace {
  operation : option command;
  url : string;
  token : string;
  max_attempts : Z;
  delay : Z
}.

(** The request of one polling attempt (lines 149-155). *)
Definition poll_headers (token : string) : gmap string string :=
  list_to_map [("Authorization", "Bearer " +:+ token);
               ("Content-Type", "application/json")].

(** The body of the loop, lines 155-168. *)
Definition poll_attempt (polling_url : value) (headers : gmap string string)
    (max_attempts delay_seconds : Z) (attempt : Z) : M (flow (option value)) :=
  response <- requests_get polling_url headers ;;
  if negb (in_ints (status_code response) [200; 202]) then
    raise (CDOError ("Failed to poll status: " +:+ text response
                       +:+ " code: " +:+ pretty (status_code response)))
  else
    status_data <- response_json response ;;
    current_status <- value_get status_data "cdoTransactionStatus" ;;
    print (OutCurrentStatus current_status (attempt + 1) max_attempts) ;;
    if in_strs current_status ["DONE"; "ERROR"] then
      ret (Returned (Some status_data))
    else
      time_sleep delay_seconds ;;
      ret Next.

(** lines 131-170 *)
Definition poll_transaction_status (polling_url : value) (token : string)
    (max_attempts delay_seconds : Z) : M (option value) :=
  let headers := poll_headers token in
  r <- for_range max_attempts
         (poll_attempt polling_url headers max_attempts delay_seconds) ;;
  match r with
  | Returned v => ret v
  | Next => ret None
  end.

(** The first half of the [try] block of [main], lines 180-199: the
    operation is started and its acknowledgement printed. *)
Definition start_operation (args : namespace) (op : command) : M value :=
  response <-
    match op with
    | Onboard device_name serial_number policy_uuid admin_password =>
        print OutInitiatingOnboarding ;;
        initiate_ftd_onboarding_using_ztp (url args) (token args)
          device_name serial_number policy_uuid admin_password
    | Delete device_uuid =>
        print OutInitiatingDeletion ;;
        delete_ftd_device (url args) (token args) device_uuid
    end ;;
  print (OutInitialResponse response) ;;
  ret response.

(** The [try] block of [main], lines 180-217. *)
Definition main_try (args : namespace) (op : command) : M unit :=
  response <- start_operation args op ;;
  polling_url <- value_get response "transactionPollingUrl" ;;
  if negb (truthy polling_url) then
    raise (CDOError "No polling URL in response")
  else
    print OutStartingPolling ;;
    final_status <- poll_transaction_status polling_url (token args)
                      (max_attempts args) (delay args) ;;
    match final_status with
    | None => print OutPollingTimedOut
    | Some v => print (OutFinalStatus v)
    end.

(** The [except] clauses of [main], lines 219-227: the line printed for a
    caught exception; each clause then calls [exit(1)]. *)
Definition main_except (e : exn) : output :=
  match e with
  | CDOError msg => OutError msg
  | _ => if is_RequestException e then OutNetworkError e else OutUnexpectedError e
  end.

(** [main] from line 175 on, once [parse_arguments()] has returned the
    namespace [args]: the exit code of the process and the trace it
    leaves.  Falling off the end of [main] ends the process with code 0. *)
Definition main (args : namespace) (srv : server) (t : trace) : Z * trace :=
  match operation args with
  | None => (1, t ++ [Printed OutNoOperation])
  | Some op =>
      match main_try args op srv t with
      | (Return _, t') => (0, t')
      | (Raise e, t') => (1, t' ++ [Printed (main_except e)])
      end
  end.

(** What [parse_arguments()] (lines 94-129, called at line 173) makes of
    the command line.  The parsing is argparse's: it returns the
    namespace, or it ends the process itself, with exit code 0 after the
    help text ([-h], [--help]) and with exit code 2 after a usage error. *)
Inductive parsed : Type :=
| Namespace (args : namespace)
| Help
| Usage.

(** [main()], lines 172-227, as the process runs it. *)
Definition run (cmdline : parsed) (srv : server) (t : trace) : Z * trace :=
  match cmdline with
  | Namespace args => main args srv t
  | Help => (0, t ++ [Printed OutHelp])
  | Usage => (2, t ++ [Printed OutUsage])
  end.

End Ftd.

(** ** python/poll_service.py *)

Module PollService.

(** The request of one polling attempt (lines 24-30). *)
Definition poll_headers (token : string) : gmap string string :=
  list_to_map [("Authorization", "Bearer " +:+ token);
               ("Content-Type", "application/json")].

(** The body of the loop, lines 30-43. *)
Definition poll_attempt (polling_url : value) (headers : gmap string string)
    (max_attempts delay_seconds : Z) (attempt : Z) : M (flow (option value)) :=
  response <- requests_get polling_url headers ;;
  if negb (in_ints (status_code response) [200; 202]) then
    raise (CDOError ("Failed to poll status: " +:+ text response
                       +:+ " code: " +:+ pretty (status_code response)))
  else
    status_data <- response_json response ;;
    current_status <- value_get status_data "cdoTransactionStatus" ;;
    print (OutCurrentStatus current_status (attempt + 1) max_attempts) ;;
    if in_strs current_status ["DONE"; "ERROR"] then
      ret (Returned (Some status_data))
    else
      time_sleep delay_seconds ;;
      ret Next.

(** lines 6-45 *)
Definition poll_transaction_status (polling_url : value) (token : string)
    (max_attempts delay_seconds : Z) : M (option value) :=
  let headers := poll_headers token in
  r <- for_range max_attempts
         (poll_attempt polling_url headers max_attempts delay_seconds) ;;
  match r with
  | Returned v => ret v
  | Next => ret None
  end.

End PollService.

(** ** Vocabulary of the statements *)

(** [part] occurs in [msg]. *)
Definition contains (msg part : string) : Prop :=
  exists pre post, msg = pre +:+ part +:+ post.

(** The two implementations of the polling function. *)
Definition poller : Type := value -> string -> Z -> Z -> M (option value).

Definition pollers : list poller :=
  [Ftd.poll_transaction_status; PollService.poll_transaction_status].

(** The request every polling attempt sends. *)
Definition poll_request (polling_url : value) (token : string) : request :=
  mkRequest GET polling_url (Ftd.poll_headers token) None.

(** The status a polling response carries for the loop to read: the
    [cdoTransactionStatus] member of a body that decodes to a dict, [VNone]
    when the dict has no such member.  Undefined when the body does not
    decode to a dict. *)
Definition status_of (r : response) : option value :=
  match json r with
  | Some (VDict d) => Some (default VNone (d !! "cdoTransactionStatus"))
  | _ => None
  end.

Definition code_ok (r : response) : bool := in_ints (status_code r) [200; 202].

Definition terminal (s : value) : bool := in_strs s ["DONE"; "ERROR"].


(** A response the loop takes as final. *)
Definition finished (r : response) : Prop :=
  code_ok r = true /\ exists s, status_of r = Some s /\ terminal s = true.

(** The message of the error raised at line 158 of ftd.py (33 of
    poll_service.py). *)
Definition poll_message (r : response) : string :=
  "Failed to poll status: " +:+ text r +:+ " code: " +:+ pretty (status_code r).



(** Every way one execution of the loop body can go, on any server and
    from any trace. *)
Inductive attempt_run (polling_url : value) (token : string)
    (max_attempts delay_seconds : Z) (srv : server) (attempt : Z) (t : trace)
  : result (flow (option value)) * trace -> Prop :=
| run_unreachable msg :
    srv (sent_count t) (poll_request polling_url token) = Fails msg ->
    attempt_run polling_url token max_attempts delay_seconds srv attempt t
      (Raise (RequestException msg),
       t ++ [Sent (poll_request polling_url token) (Fails msg)])
| run_rejected r :
    srv (sent_count t) (poll_request polling_url token) = Responds r ->
    code_ok r = false ->
    attempt_run polling_url token max_attempts delay_seconds srv attempt t
      (Raise (CDOError (poll_message r)),
       t ++ [Sent (poll_request polling_url token) (Responds r)])
| run_malformed r e :
    srv (sent_count t) (poll_request polling_url token) = Responds r ->
    code_ok r = true ->
    status_of r = None ->
    attempt_run polling_url token max_attempts delay_seconds srv attempt t
      (Raise e, t ++ [Sent (poll_request polling_url token) (Responds r)])
| run_finished r s :
    srv (sent_count t) (poll_request polling_url token) = Responds r ->
    code_ok r = true ->
    status_of r = Some s ->
    terminal s = true ->
    attempt_run polling_url token max_attempts delay_seconds srv attempt t
      (Return (Returned (json r)),
       t ++ [Sent (poll_request polling_url token) (Responds r);
             Printed (OutCurrentStatus s (attempt + 1) max_attempts)])
| run_bad_delay r s e :
    srv (sent_count t) (poll_request polling_url token) = Responds r ->
    code_ok r = true ->
    status_of r = Some s ->
    terminal s = false ->
    ~ 0 <= delay_seconds < sleep_limit ->
    attempt_run polling_url token max_attempts delay_seconds srv attempt t
      (Raise e,
       t ++ [Sent (poll_request polling_url token) (Responds r);
             Printed (OutCurrentStatus s (attempt + 1) max_attempts)])
| run_pending r s :
    srv (sent_count t) (poll_request polling_url token) = Responds r ->
    code_ok r = true ->
    status_of r = Some s ->
    terminal s = false ->
    0 <= delay_seconds < sleep_limit ->
    attempt_run polling_url token max_attempts delay_seconds srv attempt t
      (Return Next,
       t ++ [Sent (poll_request polling_url token) (Responds r);
             Printed (OutCurrentStatus s (attempt + 1) max_attempts);
             Slept delay_seconds]).

(** ** Scenarios

    Servers that answer from a script, for the concrete runs below. *)

(** The double quote character, for the text of JSON bodies. *)
Definition dq : string := String (Ascii.ascii_of_nat 34) EmptyString.

(** A body [{"cdoTransactionStatus": s}] with its text. *)
Definition status_response (code : Z) (s : string) : response :=
  mkResponse code
    ("{" +:+ dq +:+ "cdoTransactionStatus" +:+ dq +:+ ": " +:+ dq +:+ s +:+ dq +:+ "}")
    (Some (VDict {[ "cdoTransactionStatus" := VStr s ]})).

(** A body [{"transactionPollingUrl": u}] with its text. *)
Definition accepted_response (u : string) : response :=
  mkResponse 202
    ("{" +:+ dq +:+ "transactionPollingUrl" +:+ dq +:+ ": " +:+ dq +:+ u +:+ dq +:+ "}")
    (Some (VDict {[ "transactionPollingUrl" := VStr u ]})).

(** An empty JSON object. *)
Definition empty_object (code : Z) : response :=
  mkResponse code "{}" (Some (VDict ∅)).

(** The [n]-th request gets the [n]-th reply of the script, and every
    request after the script the reply [otherwise]. *)
Definition scripted (script : list response) (otherwise : response) : server :=
  fun n _ => Responds (default otherwise (script !! n)).

(** The script as above, and the network fails every request after it. *)
Definition failing_after (script : list response) (msg : string) : server :=
  fun n _ => match script !! n with
             | Some r => Responds r
             | None => Fails msg
             end.

Definition onboard_args (max_attempts delay : Z) : Ftd.namespace :=
  Ftd.mkNamespace (Some (Ftd.Onboard "fw1" "ABC123" "pol-1" ""))
    "https://edge.staging.cdo.cisco.com" "tok" max_attempts delay.


(** ** Vocabulary of the further statements *)

(** The requests of a trace, GET and POST alike, in order. *)
Definition sent_requests (t : trace) : list request :=
  omap (fun e => match e with Sent rq _ => Some rq | _ => None end) t.

(** The counters of the "Current status" lines of a trace: attempt number
    and budget of each, in order. *)
Definition progress_lines (t : trace) : list (Z * Z) :=
  omap (fun e => match e with
                 | Printed (OutCurrentStatus _ attempt budget) => Some (attempt, budget)
                 | _ => None
                 end) t.

(** What the function makes of the way its loop ended: the value of a
    [return] inside the loop, or [None] after the loop. *)
Definition after_loop (res : result (flow (option value))) : result (option value) :=
  match res with
  | Return (Returned v) => Return v
  | Return Next => Return None
  | Raise e => Raise e
  end.

(** The shape of what [rounds] rounds of the loop, the first one numbered
    [attempt], add to a trace, with the way the loop ends.  Every round but
    the last one takes the last constructor. *)
Inductive loop_trace (polling_url : value) (token : string)
    (max_attempts delay_seconds : Z)
  : nat -> Z -> result (flow (option value)) -> trace -> Prop :=
| loop_exhausted attempt :
    loop_trace polling_url token max_attempts delay_seconds
      O attempt (Return Next) []
| loop_unreachable rounds attempt msg :
    loop_trace polling_url token max_attempts delay_seconds
      (S rounds) attempt (Raise (RequestException msg))
      [Sent (poll_request polling_url token) (Fails msg)]
| loop_rejected rounds attempt r :
    code_ok r = false ->
    loop_trace polling_url token max_attempts delay_seconds
      (S rounds) attempt (Raise (CDOError (poll_message r)))
      [Sent (poll_request polling_url token) (Responds r)]
| loop_undecodable rounds attempt r :
    code_ok r = true ->
    json r = None ->
    loop_trace polling_url token max_attempts delay_seconds
      (S rounds) attempt (Raise JSONDecodeError)
      [Sent (poll_request polling_url token) (Responds r)]
| loop_not_object rounds attempt r v :
    code_ok r = true ->
    json r = Some v ->
    (forall d, v <> VDict d) ->
    loop_trace polling_url token max_attempts delay_seconds
      (S rounds) attempt (Raise AttributeError)
      [Sent (poll_request polling_url token) (Responds r)]
| loop_finished rounds attempt r d :
    code_ok r = true ->
    json r = Some (VDict d) ->
    terminal (default VNone (d !! "cdoTransactionStatus")) = true ->
    loop_trace polling_url token max_attempts delay_seconds
      (S rounds) attempt (Return (Returned (Some (VDict d))))
      [Sent (poll_request polling_url token) (Responds r);
       Printed (OutCurrentStatus (default VNone (d !! "cdoTransactionStatus"))
                  (attempt + 1) max_attempts)]
| loop_bad_delay rounds attempt r d :
    code_ok r = true ->
    json r = Some (VDict d) ->
    terminal (default VNone (d !! "cdoTransactionStatus")) = false ->
    delay_seconds < 0 ->
    loop_trace polling_url token max_attempts delay_seconds
      (S rounds) attempt (Raise (ValueError "sleep length must be non-negative"))
      [Sent (poll_request polling_url token) (Responds r);
       Printed (OutCurrentStatus (default VNone (d !! "cdoTransactionStatus"))
                  (attempt + 1) max_attempts)]
| loop_long_delay rounds attempt r d :
    code_ok r = true ->
    json r = Some (VDict d) ->
    terminal (default VNone (d !! "cdoTransactionStatus")) = false ->
    sleep_limit <= delay_seconds ->
    loop_trace polling_url token max_attempts delay_seconds
      (S rounds) attempt
      (Raise (if delay_seconds =? sleep_limit then OSError else OverflowError))
      [Sent (poll_request polling_url token) (Responds r);
       Printed (OutCurrentStatus (default VNone (d !! "cdoTransactionStatus"))
                  (attempt + 1) max_attempts)]
| loop_pending rounds attempt r d res ext :
    code_ok r = true ->
    json r = Some (VDict d) ->
    terminal (default VNone (d !! "cdoTransactionStatus")) = false ->
    0 <= delay_seconds < sleep_limit ->
    loop_trace polling_url token max_attempts delay_seconds
      rounds (attempt + 1) res ext ->
    loop_trace polling_url token max_attempts delay_seconds
      (S rounds) attempt res
      (Sent (poll_request polling_url token) (Responds r)
       :: Printed (OutCurrentStatus (default VNone (d !! "cdoTransactionStatus"))
                     (attempt + 1) max_attempts)
       :: Slept delay_seconds
       :: ext).

(** What [main] makes of the outcome of the polling function: the exit
    code of the process and the last line it prints. *)
Definition exit_code_after (res : result (option value)) : Z :=
  match res with
  | Return _ => 0
  | Raise _ => 1
  end.

Definition last_line_after (res : result (option value)) : output :=
  match res with
  | Return None => OutPollingTimedOut
  | Return (Some v) => OutFinalStatus v
  | Raise e => Ftd.main_except e
  end.

(** The ways a run of [main] with an operation can go, by how far it gets:
    the submission fails, the polling URL cannot be had from the
    acknowledged body, or the polling runs. *)
Inductive main_shape (args : Ftd.namespace) (srv : server) (rq : request)
    (line : output) : Z * trace -> Prop :=
| main_not_accepted e :
    (forall r, srv 0%nat rq = Responds r ->
               status_code r <> 202 \/ (json r = None /\ e = JSONDecodeError)) ->
    (forall msg, srv 0%nat rq = Fails msg -> e = RequestException msg) ->
    main_shape args srv rq line
      (1, [Printed line; Sent rq (srv 0%nat rq); Printed (Ftd.main_except e)])
| main_no_polling_url r body e :
    srv 0%nat rq = Responds r ->
    status_code r = 202 ->
    json r = Some body ->
    ((forall d, body <> VDict d) /\ e = AttributeError)
    \/ (exists d, body = VDict d
                  /\ truthy (default VNone (d !! "transactionPollingUrl")) = false
                  /\ e = CDOError "No polling URL in response") ->
    main_shape args srv rq line
      (1, [Printed line; Sent rq (Responds r); Printed (OutInitialResponse body);
           Printed (Ftd.main_except e)])
| main_polled r d u fres ext :
    srv 0%nat rq = Responds r ->
    status_code r = 202 ->
    json r = Some (VDict d) ->
    d !! "transactionPollingUrl" = Some u ->
    truthy u = true ->
    loop_trace u (Ftd.token args) (Ftd.max_attempts args) (Ftd.delay args)
      (Z.to_nat (Ftd.max_attempts args)) 0 fres ext ->
    main_shape args srv rq line
      (exit_code_after (after_loop fres),
       [Printed line; Sent rq (Responds r); Printed (OutInitialResponse (VDict d));
        Printed OutStartingPolling]
       ++ ext ++ [Printed (last_line_after (after_loop fres))]).

(** * Properties *)

(** ** One attempt of the loop *)

Section Attempt.
Context (polling_url : value) (token : string) (max_attempts delay_seconds : Z).
Context (srv : server).

Local Abbreviation rq := (poll_request polling_url token).

Lemma poll_attempt_run attempt t :
  attempt_run polling_url token max_attempts delay_seconds srv attempt t
    (Ftd.poll_attempt polling_url (Ftd.poll_headers token)
       max_attempts delay_seconds attempt srv t).
Proof.
  unfold Ftd.poll_attempt, requests_get, bind, send.
  change (mkRequest GET polling_url (Ftd.poll_headers token) None)
    with (poll_request polling_url token).
  cbv zeta.
  destruct (srv (sent_count t) rq) as [r | msg] eqn:Hreply.
  2: { now apply run_unreachable. }
  fold (code_ok r).
  destruct (code_ok r) eqn:Hcode; simpl.
  2: { now apply run_rejected. }
  unfold response_json.
  destruct (json r) as [body |] eqn:Hjson; simpl.
  2: { apply run_malformed; auto. unfold status_of. now rewrite Hjson. }
  destruct body;
    try (apply run_malformed; auto; unfold status_of; now rewrite Hjson).
  simpl. unfold print; simpl.
  set (s := default VNone (d !! "cdoTransactionStatus")).
  assert (Hs : status_of r = Some s) by (unfold status_of; now rewrite Hjson).
  destruct (terminal s) eqn:Hterm;
    pose proof Hterm as Hterm'; unfold terminal in Hterm';
    simpl in Hterm' |- *; rewrite Hterm'.
  { unfold ret. rewrite <- app_assoc; simpl.
    replace (Some (VDict d)) with (json r) by assumption.
    now apply run_finished. }
  unfold time_sleep.
  destruct (delay_seconds <? 0) eqn:Hneg; simpl.
  { rewrite <- app_assoc; simpl.
    apply run_bad_delay; auto. lia. }
  destruct (delay_seconds <? sleep_limit) eqn:Hlim; simpl.
  { rewrite <- !app_assoc; simpl.
    apply run_pending; auto. lia. }
  destruct (delay_seconds =? sleep_limit); simpl;
    rewrite <- app_assoc; simpl; apply run_bad_delay; auto; lia.
Qed.

End Attempt.

(** ** Traces of a concatenation *)


Lemma gets_app (t u : trace) : gets (t ++ u) = gets t ++ gets u.
Proof. apply omap_app. Qed.

Lemma delays_app (t u : trace) : delays (t ++ u) = delays t ++ delays u.
Proof. apply omap_app. Qed.

(** Where an element sits in a list written out in full: one goal per
    position, with the element's equation in the context. *)
Ltac locate H :=
  lazymatch type of H with
  | [] = ?pre ++ _ :: _ => destruct pre; discriminate H
  | _ :: _ = ?pre ++ _ :: _ =>
      let p := fresh "pre" in
      destruct pre as [|? p]; simpl in H;
      [ first [discriminate H | injection H; intros]
      | injection H as _ H; locate H ]
  end.

(** ** The loop *)

Section Loop.
Context (polling_url : value) (token : string) (max_attempts delay_seconds : Z).
Context (srv : server).

Local Abbreviation rq := (poll_request polling_url token).
Local Abbreviation body :=
  (Ftd.poll_attempt polling_url (Ftd.poll_headers token) max_attempts delay_seconds).

(** The function is the loop followed by [return None]. *)
Lemma poll_unfold t :
  Ftd.poll_transaction_status polling_url token max_attempts delay_seconds srv t =
  match for_from (Z.to_nat max_attempts) 0 body srv t with
  | (Return (Returned v), t') => (Return v, t')
  | (Return Next, t') => (Return None, t')
  | (Raise e, t') => (Raise e, t')
  end.
Proof.
  unfold Ftd.poll_transaction_status, for_range, bind.
  destruct (for_from _ _ _ _ _) as [[[|v]|e] t']; reflexivity.
Qed.

Lemma for_from_S n a t :
  for_from (S n) a body srv t =
  match body a srv t with
  | (Return Next, t') => for_from n (a + 1) body srv t'
  | (Return (Returned v), t') => (Return (Returned v), t')
  | (Raise e, t') => (Raise e, t')
  end.
Proof.
  simpl. unfold bind. destruct (body a srv t) as [[[|v]|e] t']; reflexivity.
Qed.


(** Whatever the server answers, [n] rounds send at most [n] requests
    and sleep at most [n] times. *)
Lemma for_from_bounded n : forall a t,
  exists ext,
    snd (for_from n a body srv t) = t ++ ext
    /\ (length (gets ext) <= n)%nat
    /\ (length (delays ext) <= n)%nat.
Proof.
  induction n as [|n IH]; intros a t.
  - exists []. simpl. rewrite app_nil_r. auto.
  - rewrite for_from_S.
    pose proof (poll_attempt_run polling_url token max_attempts delay_seconds
                  srv a t) as Hrun.
    inversion Hrun as [msg H1 Heq | r' H1 H2 Heq | r' e H1 H2 H3 Heq
                      | r' s' H1 H2 H3 H4 Heq | r' s' msg H1 H2 H3 H4 H5 Heq
                      | r' s' H1 H2 H3 H4 H5 Heq];
      try (eexists; split; [reflexivity | simpl; split; lia]).
    destruct (IH (a + 1) (t ++ [Sent rq (Responds r');
                Printed (OutCurrentStatus s' (a + 1) max_attempts);
                Slept delay_seconds])) as (ext & Hrest & Hgets & Hdel).
    eexists. split; [| split].
    + rewrite Hrest, <- app_assoc. reflexivity.
    + rewrite gets_app, length_app. simpl. lia.
    + rewrite delays_app, length_app. simpl. lia.
Qed.

(** A response with a status code outside 200 and 202 is the last event
    of the loop, and the loop raises the error made from it. *)
Lemma for_from_rejected n : forall a t,
  exists ext,
    snd (for_from n a body srv t) = t ++ ext
    /\ forall pre rq' r post,
         ext = pre ++ Sent rq' (Responds r) :: post ->
         code_ok r = false ->
         post = []
         /\ fst (for_from n a body srv t) = Raise (CDOError (poll_message r)).
Proof.
  induction n as [|n IH]; intros a t.
  - exists []. simpl. rewrite app_nil_r. split; [reflexivity |].
    intros [|? ?] ? ? ? Hext; discriminate.
  - rewrite for_from_S.
    pose proof (poll_attempt_run polling_url token max_attempts delay_seconds
                  srv a t) as Hrun.
    inversion Hrun as [msg H1 Heq | r' H1 H2 Heq | r' e H1 H2 H3 Heq
                      | r' s' H1 H2 H3 H4 Heq | r' s' msg H1 H2 H3 H4 H5 Heq
                      | r' s' H1 H2 H3 H4 H5 Heq].
    1-5: eexists; split; [reflexivity |];
         intros pre rq' r post Hext Hbad; simpl;
         locate Hext; subst; try congruence; auto.
    destruct (IH (a + 1) (t ++ [Sent rq (Responds r');
                Printed (OutCurrentStatus s' (a + 1) max_attempts);
                Slept delay_seconds])) as (ext & Hrest & Hlast).
    eexists. split.
    + rewrite Hrest, <- app_assoc. reflexivity.
    + intros pre rq' r post Hext Hbad.
      rewrite <- !app_comm_cons, app_nil_l in Hext.
      destruct pre as [|e1 pre]; simpl in Hext.
      { injection Hext as _ <- _. congruence. }
      injection Hext as _ Hext.
      destruct pre as [|e2 pre]; simpl in Hext; [discriminate |].
      injection Hext as _ Hext.
      destruct pre as [|e3 pre]; simpl in Hext; [discriminate |].
      injection Hext as _ Hext.
      apply (Hlast pre rq' r post Hext Hbad).
Qed.

End Loop.

(** ** The polling function *)

Lemma code_ok_true (r : response) :
  code_ok r = true <-> status_code r = 200 \/ status_code r = 202.
Proof. unfold code_ok, in_ints; simpl. lia. Qed.

Lemma code_ok_false (r : response) :
  code_ok r = false <-> status_code r <> 200 /\ status_code r <> 202.
Proof. unfold code_ok, in_ints; simpl. lia. Qed.

(** poll_service.py repeats ftd.py line by line. *)
Lemma pollers_same (poll : poller) :
  In poll pollers -> poll = Ftd.poll_transaction_status.
Proof. intros [<- | [<- | []]]; reflexivity. Qed.

Lemma append_assoc (s1 s2 s3 : string) :
  (s1 +:+ s2) +:+ s3 = s1 +:+ (s2 +:+ s3).
Proof.
  induction s1 as [|c s1 IH]; [reflexivity |].
  change (String c ((s1 +:+ s2) +:+ s3) = String c (s1 +:+ (s2 +:+ s3))).
  now rewrite IH.
Qed.

Lemma append_empty_r (s : string) : s +:+ "" = s.
Proof.
  induction s as [|c s IH]; [reflexivity |].
  change (String c (s +:+ "") = String c s).
  now rewrite IH.
Qed.

Lemma poll_message_text (r : response) : contains (poll_message r) (text r).
Proof.
  exists "Failed to poll status: ", (" code: " +:+ pretty (status_code r)).
  reflexivity.
Qed.

Lemma poll_message_code (r : response) :
  contains (poll_message r) (pretty (status_code r)).
Proof.
  exists ("Failed to poll status: " +:+ text r +:+ " code: "), "".
  unfold poll_message.
  now rewrite append_empty_r, !append_assoc.
Qed.


(** A negative [delay_seconds] (the command line takes any integer for
    [--delay]) ends the run at the first sleep; the statements about
    delays below are for lengths that can be slept. *)
Example poll_negative_delay :
  fst (Ftd.poll_transaction_status (VStr "https://x/status/1") "tok" 300 (-1)
         (scripted [] (status_response 200 "RUNNING")) [])
  = Raise (ValueError "sleep length must be non-negative").
Proof. vm_compute. reflexivity. Qed.

(** The status sequence ERROR: one request, no delay, the body returned
    and nothing raised; the delay is never looked at. *)
Example poll_error_first_attempt :
  forall delay_seconds,
    Ftd.poll_transaction_status (VStr "https://x/status/1") "tok" 300 delay_seconds
      (scripted [] (status_response 200 "ERROR")) []
    = (Return (json (status_response 200 "ERROR")),
       [Sent (poll_request (VStr "https://x/status/1") "tok")
             (Responds (status_response 200 "ERROR"));
        Printed (OutCurrentStatus (VStr "ERROR") 1 300)]).
Proof. intros delay_seconds. vm_compute. reflexivity. Qed.

(** C3: wherever a run of either implementation received a response whose
    status code is neither 200 nor 202, that response is the last event of
    the run (no request and no delay follows it) and the run raised the
    [CDOError] whose message holds the text of the response and its status
    code. *)
Theorem poll_rejects_bad_status_code :
  forall (poll : poller) polling_url token max_attempts delay_seconds srv t
         res t' pre rq (r : response) post,
    In poll pollers ->
    poll polling_url token max_attempts delay_seconds srv t = (res, t') ->
    t' = t ++ pre ++ Sent rq (Responds r) :: post ->
    status_code r <> 200 ->
    status_code r <> 202 ->
    res = Raise (CDOError (poll_message r))
    /\ contains (poll_message r) (text r)
    /\ contains (poll_message r) (pretty (status_code r))
    /\ post = [].
Proof.
  intros poll polling_url token max_attempts delay_seconds srv t
         res t' pre rq r post Hin Hrun Ht' H200 H202.
  rewrite (pollers_same poll Hin), poll_unfold in Hrun.
  destruct (for_from_rejected polling_url token max_attempts delay_seconds srv
              (Z.to_nat max_attempts) 0 t) as (ext & Hsnd & Hlast).
  assert (Hbad : code_ok r = false) by (apply code_ok_false; auto).
  destruct (for_from _ _ _ _ _) as [out t1].
  simpl in Hsnd. simpl in Hlast.
  assert (Ht1 : t' = t1) by (destruct out as [[|v]|e]; congruence).
  rewrite <- Ht1 in Hsnd. rewrite Hsnd in Ht'. apply app_inv_head in Ht'.
  destruct (Hlast pre rq r post Ht' Hbad) as [Hpost Hout].
  rewrite Hout in Hrun. injection Hrun as <- _.
  auto using poll_message_text, poll_message_code.
Qed.

(** RUNNING, then 503: the second response ends the run. *)
Lemma poll_rejects_bad_status_code_witness :
  let unavailable := mkResponse 503 "Service Unavailable" None in
  let srv := scripted [status_response 200 "RUNNING"] unavailable in
  let out := Ftd.poll_transaction_status (VStr "https://x/status/1") "tok" 300 10 srv [] in
  fst out = Raise (CDOError "Failed to poll status: Service Unavailable code: 503")
  /\ length (gets (snd out)) = 2%nat
  /\ delays (snd out) = [10].
Proof.
  intros unavailable srv out.
  destruct (poll_rejects_bad_status_code Ftd.poll_transaction_status
              (VStr "https://x/status/1") "tok" 300 10 srv []
              (fst out) (snd out)
              [Sent (poll_request (VStr "https://x/status/1") "tok")
                    (Responds (status_response 200 "RUNNING"));
               Printed (OutCurrentStatus (VStr "RUNNING") 1 300);
               Slept 10]
              (poll_request (VStr "https://x/status/1") "tok")
              unavailable [])
    as (Hres & _ & _ & _).
  - left; reflexivity.
  - apply surjective_pairing.
  - vm_compute. reflexivity.
  - simpl. lia.
  - simpl. lia.
  - split; [rewrite Hres; vm_compute; reflexivity |].
    split; vm_compute; reflexivity.
Defined.

(** C8: the two implementations agree on every input: same outcome
    (returned body, raised error or [None]) and same trace, so the same
    requests and the same delays. *)
Theorem pollers_agree :
  forall polling_url token max_attempts delay_seconds srv t,
    PollService.poll_transaction_status polling_url token max_attempts delay_seconds srv t
    = Ftd.poll_transaction_status polling_url token max_attempts delay_seconds srv t.
Proof. reflexivity. Qed.

(** C10: on every input either implementation returns, having sent at
    most [max_attempts] requests and slept at most [max_attempts] times;
    with [max_attempts] zero or negative it returns [None] and leaves the
    trace as it found it. *)
Theorem poll_stays_within_budget :
  forall (poll : poller) polling_url token max_attempts delay_seconds srv t,
    In poll pollers ->
    exists res ext,
      poll polling_url token max_attempts delay_seconds srv t = (res, t ++ ext)
      /\ Z.of_nat (length (gets ext)) <= Z.max 0 max_attempts
      /\ Z.of_nat (length (delays ext)) <= Z.max 0 max_attempts
      /\ (max_attempts <= 0 -> res = Return None /\ ext = []).
Proof.
  intros poll polling_url token max_attempts delay_seconds srv t Hin.
  rewrite (pollers_same poll Hin), poll_unfold.
  destruct (for_from_bounded polling_url token max_attempts delay_seconds srv
              (Z.to_nat max_attempts) 0 t) as (ext & Hsnd & Hgets & Hdel).
  destruct (Z_le_gt_dec max_attempts 0) as [Hle | Hgt].
  - replace (Z.to_nat max_attempts) with 0%nat in * by lia. simpl.
    exists (Return None), []. rewrite app_nil_r. simpl.
    repeat split; lia.
  - destruct (for_from _ _ _ _ _) as [out t1].
    simpl in Hsnd. subst t1.
    exists (match out with
            | Return (Returned v) => Return v
            | Return Next => Return None
            | Raise e => Raise e
            end), ext.
    split; [destruct out as [[|v]|e]; reflexivity |].
    repeat split; lia.
Qed.

(** A budget of zero and a negative budget. *)
Lemma poll_stays_within_budget_witness :
  let srv := scripted [] (status_response 200 "RUNNING") in
  Ftd.poll_transaction_status (VStr "https://x/status/1") "tok" 0 10 srv []
    = (Return None, [])
  /\ PollService.poll_transaction_status (VStr "https://x/status/1") "tok" (-3) 10 srv []
    = (Return None, []).
Proof.
  intros srv. split.
  - destruct (poll_stays_within_budget Ftd.poll_transaction_status
                (VStr "https://x/status/1") "tok" 0 10 srv [])
      as (res & ext & Hrun & _ & _ & Hzero).
    + left; reflexivity.
    + destruct Hzero as [-> ->]; [lia |]. exact Hrun.
  - destruct (poll_stays_within_budget PollService.poll_transaction_status
                (VStr "https://x/status/1") "tok" (-3) 10 srv [])
      as (res & ext & Hrun & _ & _ & Hzero).
    + right; left; reflexivity.
    + destruct Hzero as [-> ->]; [lia |]. exact Hrun.
Defined.

(** ** Starting an operation *)

(** C4: when the acknowledgement has a status code other than 202, both
    operations raise a [CDOError] whose message ends with the text of the
    response; when it is 202 they return the decoded body. *)
Theorem submission_requires_202 :
  forall srv t (r : response)
         base_url token device_name serial_number access_policy_uuid
         admin_password device_uuid,
    (forall rq, srv (sent_count t) rq = Responds r) ->
    let onboard :=
      Ftd.initiate_ftd_onboarding_using_ztp base_url token device_name
        serial_number access_policy_uuid admin_password srv t in
    let delete := Ftd.delete_ftd_device base_url token device_uuid srv t in
    (status_code r <> 202 ->
       fst onboard = Raise (CDOError ("Failed to create ZTP request: " +:+ text r))
       /\ contains ("Failed to create ZTP request: " +:+ text r) (text r)
       /\ fst delete = Raise (CDOError ("Failed to delete FTD device: " +:+ text r))
       /\ contains ("Failed to delete FTD device: " +:+ text r) (text r))
    /\ (status_code r = 202 ->
          forall body, json r = Some body ->
            fst onboard = Return body /\ fst delete = Return body).
Proof.
  intros srv t r base_url token device_name serial_number access_policy_uuid
         admin_password device_uuid Hsrv onboard delete.
  subst onboard delete.
  unfold Ftd.initiate_ftd_onboarding_using_ztp, Ftd.delete_ftd_device,
    requests_post, bind, send.
  rewrite !Hsrv.
  split.
  - intros Hcode.
    assert (Hne : (status_code r =? 202) = false) by lia.
    rewrite Hne. simpl.
    repeat split; try reflexivity.
    + exists "Failed to create ZTP request: ", "". now rewrite append_empty_r.
    + exists "Failed to delete FTD device: ", "". now rewrite append_empty_r.
  - intros Hcode body Hbody.
    assert (Heq : (status_code r =? 202) = true) by lia.
    rewrite Heq. simpl. unfold response_json. rewrite Hbody. auto.
Qed.

(** A 400 and a 202. *)
Lemma submission_requires_202_witness :
  let refused := mkResponse 400 "serial number already claimed" None in
  let accepted := accepted_response "https://x/status/1" in
  fst (Ftd.initiate_ftd_onboarding_using_ztp "https://x" "tok" "fw1" "ABC123" "pol-1" ""
         (scripted [] refused) [])
    = Raise (CDOError "Failed to create ZTP request: serial number already claimed")
  /\ fst (Ftd.delete_ftd_device "https://x" "tok" "dev-1" (scripted [] accepted) [])
    = Return (VDict {[ "transactionPollingUrl" := VStr "https://x/status/1" ]}).
Proof.
  intros refused accepted. split.
  - destruct (submission_requires_202 (scripted [] refused) [] refused
                "https://x" "tok" "fw1" "ABC123" "pol-1" "" "dev-1")
      as [Hrefused _].
    + intros rq. reflexivity.
    + destruct Hrefused as (Honboard & _); [simpl; lia |]. exact Honboard.
  - destruct (submission_requires_202 (scripted [] accepted) [] accepted
                "https://x" "tok" "fw1" "ABC123" "pol-1" "" "dev-1")
      as [_ Haccepted].
    + intros rq. reflexivity.
    + destruct (Haccepted eq_refl
                  (VDict {[ "transactionPollingUrl" := VStr "https://x/status/1" ]})
                  eq_refl) as [_ Hdelete].
      exact Hdelete.
Defined.

(** ** The process *)

(** An acknowledgement with status code 202 and a decodable body: the
    first half of the [try] block returns the body, having sent the one
    POST request and nothing else. *)
Lemma start_operation_accepted args op srv (r : response) body :
  (forall rq, srv 0%nat rq = Responds r) ->
  status_code r = 202 ->
  json r = Some body ->
  exists t1,
    Ftd.start_operation args op srv [] = (Return body, t1)
    /\ gets t1 = [].
Proof.
  intros Hsrv Hcode Hbody.
  assert (Heq : (status_code r =? 202) = true) by lia.
  destruct op;
    unfold Ftd.start_operation, Ftd.initiate_ftd_onboarding_using_ztp,
      Ftd.delete_ftd_device, requests_post, bind, send, print;
    simpl; rewrite Hsrv, Heq; simpl;
    unfold response_json; rewrite Hbody; simpl;
    eexists; split; reflexivity.
Qed.

(** When the acknowledged body is a dict whose [transactionPollingUrl] is
    missing or false in a condition, the [try] block raises at line 204,
    before the polling function is called. *)
Lemma main_falsy_polling_url args op srv (r : response) (d : gmap string value) :
  Ftd.operation args = Some op ->
  (forall rq, srv 0%nat rq = Responds r) ->
  status_code r = 202 ->
  json r = Some (VDict d) ->
  truthy (default VNone (d !! "transactionPollingUrl")) = false ->
  exists t',
    Ftd.main_try args op srv [] = (Raise (CDOError "No polling URL in response"), t')
    /\ Ftd.main args srv [] = (1, t' ++ [Printed (OutError "No polling URL in response")])
    /\ gets (t' ++ [Printed (OutError "No polling URL in response")]) = [].
Proof.
  intros Hop Hsrv Hcode Hbody Hfalsy.
  destruct (start_operation_accepted args op srv r (VDict d) Hsrv Hcode Hbody)
    as (t1 & Hstart & Hgets).
  exists t1.
  assert (Htry : Ftd.main_try args op srv []
                 = (Raise (CDOError "No polling URL in response"), t1)).
  { unfold Ftd.main_try, bind. rewrite Hstart. simpl. rewrite Hfalsy. reflexivity. }
  split; [exact Htry |]. split.
  - unfold Ftd.main. rewrite Hop, Htry. reflexivity.
  - rewrite gets_app, Hgets. reflexivity.
Qed.

(** C5: when the acknowledgement has status code 202 and its body is a
    JSON object without [transactionPollingUrl], the [try] block of [main]
    raises [CDOError "No polling URL in response"], the process ends with
    exit code 1, and its trace holds no GET request. *)
Theorem main_missing_polling_url :
  forall args op srv (r : response) (d : gmap string value),
    Ftd.operation args = Some op ->
    (forall rq, srv 0%nat rq = Responds r) ->
    status_code r = 202 ->
    json r = Some (VDict d) ->
    d !! "transactionPollingUrl" = None ->
    exists t',
      Ftd.main_try args op srv [] = (Raise (CDOError "No polling URL in response"), t')
      /\ fst (Ftd.main args srv []) = 1
      /\ gets (snd (Ftd.main args srv [])) = [].
Proof.
  intros args op srv r d Hop Hsrv Hcode Hbody Hmissing.
  destruct (main_falsy_polling_url args op srv r d Hop Hsrv Hcode Hbody)
    as (t' & Htry & Hmain & Hgets).
  { rewrite Hmissing. reflexivity. }
  exists t'. rewrite Hmain. auto.
Qed.

(** Onboarding acknowledged with an empty object. *)
Lemma main_missing_polling_url_witness :
  let srv := scripted [] (empty_object 202) in
  fst (Ftd.main (onboard_args 300 10) srv []) = 1
  /\ gets (snd (Ftd.main (onboard_args 300 10) srv [])) = [].
Proof.
  intros srv.
  destruct (main_missing_polling_url (onboard_args 300 10)
              (Ftd.Onboard "fw1" "ABC123" "pol-1" "") srv (empty_object 202) ∅)
    as (t' & _ & Hcode & Hgets).
  - reflexivity.
  - intros rq. reflexivity.
  - reflexivity.
  - reflexivity.
  - reflexivity.
  - split; [exact Hcode | exact Hgets].
Defined.

(** C9: when the acknowledgement has status code 202 and its body carries
    [transactionPollingUrl] with the empty string for value, [main] does
    what it does for a missing member: the [try] block raises
    [CDOError "No polling URL in response"], the process ends with exit
    code 1, and its trace holds no GET request. *)
Theorem main_empty_polling_url :
  forall args op srv (r : response) (d : gmap string value),
    Ftd.operation args = Some op ->
    (forall rq, srv 0%nat rq = Responds r) ->
    status_code r = 202 ->
    json r = Some (VDict d) ->
    d !! "transactionPollingUrl" = Some (VStr "") ->
    exists t',
      Ftd.main_try args op srv [] = (Raise (CDOError "No polling URL in response"), t')
      /\ fst (Ftd.main args srv []) = 1
      /\ gets (snd (Ftd.main args srv [])) = [].
Proof.
  intros args op srv r d Hop Hsrv Hcode Hbody Hempty.
  destruct (main_falsy_polling_url args op srv r d Hop Hsrv Hcode Hbody)
    as (t' & Htry & Hmain & Hgets).
  { rewrite Hempty. reflexivity. }
  exists t'. rewrite Hmain. auto.
Qed.

(** Deletion acknowledged with an empty polling URL. *)
Lemma main_empty_polling_url_witness :
  let args := Ftd.mkNamespace (Some (Ftd.Delete "dev-1"))
                "https://edge.staging.cdo.cisco.com" "tok" 300 10 in
  let srv := scripted [] (accepted_response "") in
  fst (Ftd.main args srv []) = 1
  /\ gets (snd (Ftd.main args srv [])) = [].
Proof.
  intros args srv.
  destruct (main_empty_polling_url args (Ftd.Delete "dev-1") srv
              (accepted_response "") {[ "transactionPollingUrl" := VStr "" ]})
    as (t' & _ & Hcode & Hgets).
  - reflexivity.
  - intros rq. reflexivity.
  - reflexivity.
  - reflexivity.
  - reflexivity.
  - split; [exact Hcode | exact Hgets].
Defined.

(** * Further properties *)

(** ** Runs of the loop *)

(** Every run of the loop has one of the shapes of [loop_trace]. *)
Lemma for_from_trace polling_url token max_attempts delay_seconds srv n :
  forall a t,
    exists res ext,
      for_from n a
        (Ftd.poll_attempt polling_url (Ftd.poll_headers token)
           max_attempts delay_seconds) srv t = (res, t ++ ext)
      /\ loop_trace polling_url token max_attempts delay_seconds n a res ext.
Proof.
  induction n as [|n IH]; intros a t.
  - exists (Return Next), []. simpl. rewrite app_nil_r.
    split; [reflexivity | constructor].
  - rewrite for_from_S.
    unfold Ftd.poll_attempt at 1, requests_get, bind, send.
    change (mkRequest GET polling_url (Ftd.poll_headers token) None)
      with (poll_request polling_url token).
    cbv zeta.
    destruct (srv (sent_count t) (poll_request polling_url token)) as [r | msg].
    2: { do 2 eexists. split; [reflexivity | constructor]. }
    fold (code_ok r).
    destruct (code_ok r) eqn:Hcode; simpl.
    2: { do 2 eexists. split; [reflexivity | now constructor]. }
    unfold response_json.
    destruct (json r) as [body |] eqn:Hjson; simpl.
    2: { do 2 eexists. split; [reflexivity | now constructor]. }
    destruct body;
      try (do 2 eexists; split; [reflexivity |];
           eapply loop_not_object; eauto; congruence).
    simpl. unfold print; simpl.
    set (s := default VNone (d !! "cdoTransactionStatus")).
    destruct (terminal s) eqn:Hterm;
      pose proof Hterm as Hterm'; unfold terminal in Hterm';
      simpl in Hterm' |- *; rewrite Hterm'.
    { unfold ret. do 2 eexists. rewrite <- app_assoc. simpl.
      split; [reflexivity | now constructor]. }
    unfold time_sleep.
    destruct (delay_seconds <? 0) eqn:Hd; simpl.
    { do 2 eexists. rewrite <- app_assoc. simpl.
      split; [reflexivity |]. apply loop_bad_delay; auto. lia. }
    destruct (delay_seconds <? sleep_limit) eqn:Hlim; simpl.
    2: { pose proof (loop_long_delay polling_url token max_attempts delay_seconds
                       n a r d Hcode Hjson Hterm ltac:(lia)) as Hlong.
         destruct (delay_seconds =? sleep_limit); simpl;
           do 2 eexists; rewrite <- app_assoc; simpl;
           (split; [reflexivity | exact Hlong]). }
    unfold ret.
    match goal with
    | |- context [for_from n (a + 1) _ srv ?t1] =>
        destruct (IH (a + 1) t1) as (res & ext & Hrun & Hshape)
    end.
    rewrite Hrun. exists res. eexists.
    rewrite <- !app_assoc. simpl.
    split; [reflexivity |]. constructor; auto. lia.
Qed.

(** A run of either implementation, read back as a run of the loop. *)
Lemma poll_run_inv (poll : poller) polling_url token max_attempts delay_seconds
    srv t res ext :
  In poll pollers ->
  poll polling_url token max_attempts delay_seconds srv t = (res, t ++ ext) ->
  exists fres,
    res = after_loop fres
    /\ loop_trace polling_url token max_attempts delay_seconds
         (Z.to_nat max_attempts) 0 fres ext.
Proof.
  intros Hin Hrun.
  rewrite (pollers_same poll Hin), poll_unfold in Hrun.
  destruct (for_from_trace polling_url token max_attempts delay_seconds srv
              (Z.to_nat max_attempts) 0 t) as (fres & ext' & Hloop & Hshape).
  rewrite Hloop in Hrun.
  assert (Hpair : (after_loop fres, t ++ ext') = (res, t ++ ext)).
  { rewrite <- Hrun. destruct fres as [[|v]|e]; reflexivity. }
  injection Hpair as Hres Hext. apply app_inv_head in Hext. subst ext'.
  exists fres. auto.
Qed.

Section LoopTrace.
Context (polling_url : value) (token : string) (max_attempts delay_seconds : Z).

Local Abbreviation rq := (poll_request polling_url token).
Local Abbreviation shape := (loop_trace polling_url token max_attempts delay_seconds).

(** Only GET requests, all of them the polling request. *)
Lemma loop_trace_requests n a res ext :
  shape n a res ext ->
  sent_requests ext = replicate (sent_count ext) rq
  /\ gets ext = sent_requests ext.
Proof.
  induction 1 as [| | | | | | | | n a r d res ext _ _ _ _ _ [IH1 IH2]];
    try (split; reflexivity).
  change (sent_count (Sent rq (Responds r) :: ?l)) with (S (sent_count ext)).
  split.
  - change (rq :: sent_requests ext = rq :: replicate (sent_count ext) rq).
    now rewrite IH1.
  - change (rq :: gets ext = rq :: sent_requests ext).
    now rewrite IH2.
Qed.

(** One delay of [delay_seconds] after every request but the one that ends
    the loop; when the loop runs out of rounds, after every request. *)
Lemma loop_trace_delays n a res ext :
  shape n a res ext ->
  match res with
  | Return Next =>
      sent_count ext = n /\ delays ext = replicate (sent_count ext) delay_seconds
  | _ =>
      (1 <= sent_count ext <= n)%nat
      /\ delays ext = replicate (sent_count ext - 1) delay_seconds
  end.
Proof.
  induction 1 as [| | | | | | | | n a r d res ext _ _ _ _ _ IH];
    try (split; [unfold sent_count; simpl; lia | reflexivity]);
    try (split; reflexivity).
  change (sent_count (Sent rq (Responds r) :: ?l)) with (S (sent_count ext)).
  change (delays (Sent rq (Responds r) :: ?l)) with (delay_seconds :: delays ext).
  destruct res as [[|v]|e]; destruct IH as [Hcount Hdel]; rewrite Hdel.
  - split; [lia | reflexivity].
  - split; [lia |].
    replace (S (sent_count ext) - 1)%nat with (S (sent_count ext - 1)) by lia.
    reflexivity.
  - split; [lia |].
    replace (S (sent_count ext) - 1)%nat with (S (sent_count ext - 1)) by lia.
    reflexivity.
Qed.

(** A [return] inside the loop hands back the body of the last response,
    a dict whose status is terminal, received with status code 200 or
    202; the line printed for it ends the trace. *)
Lemma loop_trace_returned n a res ext v :
  shape n a res ext ->
  res = Return (Returned v) ->
  exists pre r d,
    v = Some (VDict d)
    /\ ext = pre ++ [Sent rq (Responds r);
                     Printed (OutCurrentStatus (default VNone (d !! "cdoTransactionStatus"))
                                (a + Z.of_nat (sent_count ext)) max_attempts)]
    /\ code_ok r = true
    /\ json r = Some (VDict d)
    /\ terminal (default VNone (d !! "cdoTransactionStatus")) = true.
Proof.
  induction 1 as [| | | | | n a r d Hcode Hjson Hterm | | | n a r d res ext _ _ _ _ _ IH];
    intros Hres; try discriminate.
  - injection Hres as <-. exists [], r, d. auto.
  - destruct (IH Hres) as (pre & r' & d' & Hv & Hext & Hcode & Hjson & Hterm).
    exists (Sent rq (Responds r)
            :: Printed (OutCurrentStatus (default VNone (d !! "cdoTransactionStatus"))
                          (a + 1) max_attempts)
            :: Slept delay_seconds :: pre), r', d'.
    repeat split; auto.
    change (sent_count (Sent rq (Responds r) :: ?l)) with (S (sent_count ext)).
    replace (a + Z.of_nat (S (sent_count ext)))
      with (a + 1 + Z.of_nat (sent_count ext)) by lia.
    rewrite Hext at 1. reflexivity.
Qed.

(** The "Current status" lines count the attempts from [a + 1] on, each
    with the budget. *)
Lemma loop_trace_progress n a res ext :
  shape n a res ext ->
  progress_lines ext
  = (fun i => (i, max_attempts))
      <$> seqZ (a + 1) (Z.of_nat (length (progress_lines ext))).
Proof.
  induction 1 as [| | | | | | | | n a r d res ext _ _ _ _ _ IH];
    try reflexivity.
  change (progress_lines (Sent rq (Responds r) :: ?l))
    with ((a + 1, max_attempts) :: progress_lines ext).
  cbn [length]. rewrite Nat2Z.inj_succ, seqZ_cons by lia.
  rewrite fmap_cons. f_equal.
  replace (Z.pred (Z.succ (Z.of_nat (length (progress_lines ext)))))
    with (Z.of_nat (length (progress_lines ext))) by lia.
  replace (Z.succ (a + 1)) with (a + 1 + 1) by lia.
  exact IH.
Qed.

(** A request the network failed is the last event, and its exception
    is what the loop raises. *)
Lemma loop_trace_unreachable n a res ext :
  shape n a res ext ->
  forall pre rq' msg post,
    ext = pre ++ Sent rq' (Fails msg) :: post ->
    post = [] /\ res = Raise (RequestException msg).
Proof.
  induction 1 as [| | | | | | | | n a r d res ext _ _ _ _ _ IH];
    intros pre rq' msg' post Hext;
    try (locate Hext; subst; try discriminate; auto; fail).
  destruct pre as [|e1 pre]; simpl in Hext; [discriminate |].
  injection Hext as _ Hext.
  destruct pre as [|e2 pre]; simpl in Hext; [discriminate |].
  injection Hext as _ Hext.
  destruct pre as [|e3 pre]; simpl in Hext; [discriminate |].
  injection Hext as _ Hext.
  eauto.
Qed.

(** A response with status code 200 or 202 whose body does not decode, or
    decodes to something other than a dict, is the last event; the loop
    raises the decode error, or the error of the missing [get]. *)
Lemma loop_trace_malformed n a res ext :
  shape n a res ext ->
  forall pre rq' r post,
    ext = pre ++ Sent rq' (Responds r) :: post ->
    code_ok r = true ->
    status_of r = None ->
    post = []
    /\ res = Raise (match json r with None => JSONDecodeError | Some _ => AttributeError end).
Proof.
  induction 1 as [a | n a msg | n a r0 Hbad
                  | n a r0 Hcode Hjson | n a r0 v Hcode Hjson Hv
                  | n a r0 d Hcode Hjson Hterm | n a r0 d Hcode Hjson Hterm Hd
                  | n a r0 d Hcode Hjson Hterm Hd
                  | n a r0 d res ext Hcode Hjson _ _ _ IH];
    intros pre rq' r post Hext Hok Hstatus;
    try (locate Hext; subst; try discriminate; try congruence; fail).
  - locate Hext; subst. rewrite Hjson. auto.
  - locate Hext; subst. rewrite Hjson. auto.
  - locate Hext; subst. unfold status_of in Hstatus. rewrite Hjson in Hstatus.
    discriminate.
  - locate Hext; subst. unfold status_of in Hstatus. rewrite Hjson in Hstatus.
    discriminate.
  - locate Hext; subst. unfold status_of in Hstatus. rewrite Hjson in Hstatus.
    discriminate.
  - destruct pre as [|e1 pre]; simpl in Hext.
    { injection Hext as _ <- _. unfold status_of in Hstatus.
      rewrite Hjson in Hstatus. discriminate. }
    injection Hext as _ Hext.
    destruct pre as [|e2 pre]; simpl in Hext; [discriminate |].
    injection Hext as _ Hext.
    destruct pre as [|e3 pre]; simpl in Hext; [discriminate |].
    injection Hext as _ Hext.
    eauto.
Qed.

End LoopTrace.

Lemma terminal_true (s : value) :
  terminal s = true <-> s = VStr "DONE" \/ s = VStr "ERROR".
Proof.
  unfold terminal, in_strs, eq_str. simpl.
  destruct s; try (split; [discriminate | intros [H | H]; discriminate]).
  rewrite orb_false_r, orb_true_iff, !String.eqb_eq.
  split.
  - intros [-> | ->]; auto.
  - intros [H | H]; injection H as ->; auto.
Qed.

(** ** The polling function, on every server *)

(** X1: whatever the server answers, every request either implementation
    sends is the same GET: to [polling_url], with the bearer token and the
    JSON content type for headers, and without a body. *)
Theorem poll_requests_same_location :
  forall (poll : poller) polling_url token max_attempts delay_seconds srv t res ext,
    In poll pollers ->
    poll polling_url token max_attempts delay_seconds srv t = (res, t ++ ext) ->
    exists rq,
      sent_requests ext = replicate (sent_count ext) rq
      /\ req_method rq = GET
      /\ req_url rq = polling_url
      /\ req_headers rq !! "Authorization" = Some ("Bearer " +:+ token)
      /\ req_headers rq !! "Content-Type" = Some "application/json"
      /\ size (req_headers rq) = 2%nat
      /\ req_json rq = None.
Proof.
  intros poll polling_url token max_attempts delay_seconds srv t res ext Hin Hrun.
  destruct (poll_run_inv poll polling_url token max_attempts delay_seconds
              srv t res ext Hin Hrun) as (fres & _ & Hshape).
  exists (poll_request polling_url token).
  split; [apply (loop_trace_requests _ _ _ _ _ _ _ _ Hshape) |].
  repeat split; reflexivity.
Qed.

Lemma poll_requests_same_location_witness :
  let srv := scripted [status_response 200 "RUNNING"; status_response 200 "RUNNING"]
                      (status_response 200 "DONE") in
  let out := Ftd.poll_transaction_status (VStr "https://x/status/1") "tok" 300 10 srv [] in
  exists rq,
    sent_requests (snd out) = replicate (sent_count (snd out)) rq
    /\ req_url rq = VStr "https://x/status/1"
    /\ sent_count (snd out) = 3%nat.
Proof.
  intros srv out.
  destruct (poll_requests_same_location Ftd.poll_transaction_status
              (VStr "https://x/status/1") "tok" 300 10 srv [] (fst out) (snd out))
    as (rq & Hreqs & _ & Hurl & _).
  - left; reflexivity.
  - apply surjective_pairing.
  - exists rq. split; [exact Hreqs |]. split; [exact Hurl |].
    vm_compute. reflexivity.
Defined.

(** X2: when either implementation returns a body or raises, it has sent
    at least one request and at most [max_attempts], and it has slept
    [delay_seconds] after each request but the last one. *)
Theorem poll_sleeps_between_attempts :
  forall (poll : poller) polling_url token max_attempts delay_seconds srv t res ext,
    In poll pollers ->
    poll polling_url token max_attempts delay_seconds srv t = (res, t ++ ext) ->
    res <> Return None ->
    (1 <= sent_count ext <= Z.to_nat max_attempts)%nat
    /\ delays ext = replicate (sent_count ext - 1) delay_seconds.
Proof.
  intros poll polling_url token max_attempts delay_seconds srv t res ext
         Hin Hrun Hres.
  destruct (poll_run_inv poll polling_url token max_attempts delay_seconds
              srv t res ext Hin Hrun) as (fres & -> & Hshape).
  pose proof (loop_trace_delays _ _ _ _ _ _ _ _ Hshape) as Hdel.
  destruct fres as [[|v]|e]; [contradiction Hres; reflexivity | exact Hdel..].
Qed.

Lemma poll_sleeps_between_attempts_witness :
  let srv := scripted [status_response 200 "RUNNING"; status_response 200 "RUNNING"]
                      (mkResponse 500 "boom" None) in
  let out := Ftd.poll_transaction_status (VStr "https://x/status/1") "tok" 300 10 srv [] in
  (1 <= sent_count (snd out) <= Z.to_nat 300)%nat
  /\ delays (snd out) = replicate (sent_count (snd out) - 1) 10.
Proof.
  intros srv out.
  apply (poll_sleeps_between_attempts Ftd.poll_transaction_status
           (VStr "https://x/status/1") "tok" 300 10 srv [] (fst out) (snd out)).
  - left; reflexivity.
  - apply surjective_pairing.
  - vm_compute. discriminate.
Defined.

(** X3: either implementation returns [None] only after the whole budget:
    it has then sent exactly [max_attempts] requests (none for a budget
    of zero or less) and slept [delay_seconds] after each of them. *)
Theorem poll_none_only_after_full_budget :
  forall (poll : poller) polling_url token max_attempts delay_seconds srv t ext,
    In poll pollers ->
    poll polling_url token max_attempts delay_seconds srv t = (Return None, t ++ ext) ->
    sent_count ext = Z.to_nat max_attempts
    /\ delays ext = replicate (Z.to_nat max_attempts) delay_seconds.
Proof.
  intros poll polling_url token max_attempts delay_seconds srv t ext Hin Hrun.
  destruct (poll_run_inv poll polling_url token max_attempts delay_seconds
              srv t (Return None) ext Hin Hrun) as (fres & Hres & Hshape).
  pose proof (loop_trace_delays _ _ _ _ _ _ _ _ Hshape) as Hdel.
  destruct fres as [[|v]|e]; try discriminate.
  - destruct Hdel as [Hcount Hdel]. rewrite Hdel, Hcount. auto.
  - destruct (loop_trace_returned _ _ _ _ _ _ _ _ v Hshape eq_refl)
      as (_ & _ & d & -> & _).
    discriminate.
Qed.

Lemma poll_none_only_after_full_budget_witness :
  let srv := scripted [] (status_response 202 "RUNNING") in
  let out := PollService.poll_transaction_status (VStr "https://x/status/1") "tok" 3 10 srv [] in
  sent_count (snd out) = 3%nat /\ delays (snd out) = [10; 10; 10].
Proof.
  intros srv out.
  apply (poll_none_only_after_full_budget PollService.poll_transaction_status
           (VStr "https://x/status/1") "tok" 3 10 srv [] (snd out)).
  - right; left; reflexivity.
  - vm_compute. reflexivity.
Defined.

(** X4: a body either implementation returns is the decoded body of the
    last response it received; that response had status code 200 or 202,
    the body is a dict, and its [cdoTransactionStatus] is the string DONE
    or the string ERROR.  Nothing but the line printed for that response
    follows it in the trace. *)
Theorem poll_returns_only_terminal_bodies :
  forall (poll : poller) polling_url token max_attempts delay_seconds srv t body ext,
    In poll pollers ->
    poll polling_url token max_attempts delay_seconds srv t
      = (Return (Some body), t ++ ext) ->
    exists pre rq (r : response) (d : gmap string value) line,
      ext = pre ++ [Sent rq (Responds r); Printed line]
      /\ (status_code r = 200 \/ status_code r = 202)
      /\ json r = Some body
      /\ body = VDict d
      /\ (d !! "cdoTransactionStatus" = Some (VStr "DONE")
          \/ d !! "cdoTransactionStatus" = Some (VStr "ERROR")).
Proof.
  intros poll polling_url token max_attempts delay_seconds srv t body ext Hin Hrun.
  destruct (poll_run_inv poll polling_url token max_attempts delay_seconds
              srv t (Return (Some body)) ext Hin Hrun) as (fres & Hres & Hshape).
  destruct fres as [[|v]|e]; try discriminate.
  injection Hres as <-.
  destruct (loop_trace_returned _ _ _ _ _ _ _ _ (Some body) Hshape eq_refl)
    as (pre & r & d & Hbody & Hext & Hcode & Hjson & Hterm).
  injection Hbody as ->.
  exists pre, (poll_request polling_url token), r, d. eexists.
  split; [exact Hext |].
  split; [now apply code_ok_true |].
  split; [exact Hjson |]. split; [reflexivity |].
  apply terminal_true in Hterm.
  destruct (d !! "cdoTransactionStatus") as [s |]; simpl in Hterm.
  - destruct Hterm as [-> | ->]; auto.
  - destruct Hterm; discriminate.
Qed.

Lemma poll_returns_only_terminal_bodies_witness :
  let srv := scripted [status_response 200 "RUNNING"] (status_response 202 "ERROR") in
  exists pre rq (r : response) (d : gmap string value) line,
    snd (Ftd.poll_transaction_status (VStr "https://x/status/1") "tok" 300 10 srv [])
      = pre ++ [Sent rq (Responds r); Printed line]
    /\ (d !! "cdoTransactionStatus" = Some (VStr "DONE")
        \/ d !! "cdoTransactionStatus" = Some (VStr "ERROR")).
Proof.
  intros srv.
  destruct (poll_returns_only_terminal_bodies Ftd.poll_transaction_status
              (VStr "https://x/status/1") "tok" 300 10 srv []
              (VDict {[ "cdoTransactionStatus" := VStr "ERROR" ]})
              (snd (Ftd.poll_transaction_status (VStr "https://x/status/1") "tok"
                      300 10 srv [])))
    as (pre & rq & r & d & line & Hext & _ & _ & _ & Hstatus).
  - left; reflexivity.
  - vm_compute. reflexivity.
  - exists pre, rq, r, d, line. split; [exact Hext | exact Hstatus].
Defined.

(** X5: the "Current status" lines either implementation prints number the
    attempts from 1, one by one, each against [max_attempts]. *)
Theorem poll_progress_lines_count_from_one :
  forall (poll : poller) polling_url token max_attempts delay_seconds srv t res ext
         (i : nat) attempt budget,
    In poll pollers ->
    poll polling_url token max_attempts delay_seconds srv t = (res, t ++ ext) ->
    progress_lines ext !! i = Some (attempt, budget) ->
    attempt = Z.of_nat i + 1 /\ budget = max_attempts.
Proof.
  intros poll polling_url token max_attempts delay_seconds srv t res ext
         i attempt budget Hin Hrun Hline.
  destruct (poll_run_inv poll polling_url token max_attempts delay_seconds
              srv t res ext Hin Hrun) as (fres & _ & Hshape).
  rewrite (loop_trace_progress _ _ _ _ _ _ _ _ Hshape) in Hline.
  rewrite list_lookup_fmap in Hline.
  destruct (seqZ (0 + 1) _ !! i) as [j |] eqn:Hj; [| discriminate].
  apply lookup_seqZ in Hj as [-> _].
  injection Hline as <- <-. split; [lia | reflexivity].
Qed.

Lemma poll_progress_lines_count_from_one_witness :
  let srv := scripted [status_response 200 "RUNNING"; status_response 200 "RUNNING"]
                      (status_response 200 "DONE") in
  let out := Ftd.poll_transaction_status (VStr "https://x/status/1") "tok" 300 10 srv [] in
  progress_lines (snd out) !! 2%nat = Some (3, 300).
Proof.
  intros srv out.
  destruct (poll_progress_lines_count_from_one Ftd.poll_transaction_status
              (VStr "https://x/status/1") "tok" 300 10 srv [] (fst out) (snd out)
              2%nat 3 300) as [_ _].
  - left; reflexivity.
  - apply surjective_pairing.
  - vm_compute. reflexivity.
  - vm_compute. reflexivity.
Defined.

(** X6: a polling request that fails in the network is not retried: it is
    the last event of the run, and either implementation raises the
    [RequestException] of that request. *)
Theorem poll_network_failure_is_fatal :
  forall (poll : poller) polling_url token max_attempts delay_seconds srv t res ext
         pre rq msg post,
    In poll pollers ->
    poll polling_url token max_attempts delay_seconds srv t = (res, t ++ ext) ->
    ext = pre ++ Sent rq (Fails msg) :: post ->
    post = [] /\ res = Raise (RequestException msg).
Proof.
  intros poll polling_url token max_attempts delay_seconds srv t res ext
         pre rq msg post Hin Hrun Hext.
  destruct (poll_run_inv poll polling_url token max_attempts delay_seconds
              srv t res ext Hin Hrun) as (fres & -> & Hshape).
  destruct (loop_trace_unreachable _ _ _ _ _ _ _ _ Hshape pre rq msg post Hext)
    as [-> ->].
  auto.
Qed.

(** X7: a response with status code 200 or 202 whose body does not decode,
    or decodes to something other than a JSON object, ends the run: it is
    the last event, no status line is printed for it, and either
    implementation raises the decode error, respectively the error of the
    missing [get] method. *)
Theorem poll_malformed_body_is_fatal :
  forall (poll : poller) polling_url token max_attempts delay_seconds srv t res ext
         pre rq (r : response) post,
    In poll pollers ->
    poll polling_url token max_attempts delay_seconds srv t = (res, t ++ ext) ->
    ext = pre ++ Sent rq (Responds r) :: post ->
    status_code r = 200 \/ status_code r = 202 ->
    (json r = None -> post = [] /\ res = Raise JSONDecodeError)
    /\ (forall v, json r = Some v -> (forall d, v <> VDict d) ->
          post = [] /\ res = Raise AttributeError).
Proof.
  intros poll polling_url token max_attempts delay_seconds srv t res ext
         pre rq r post Hin Hrun Hext Hcode.
  destruct (poll_run_inv poll polling_url token max_attempts delay_seconds
              srv t res ext Hin Hrun) as (fres & -> & Hshape).
  apply code_ok_true in Hcode.
  pose proof (loop_trace_malformed _ _ _ _ _ _ _ _ Hshape pre rq r post Hext Hcode)
    as Hbad.
  split.
  - intros Hjson. unfold status_of in Hbad. rewrite Hjson in Hbad.
    destruct (Hbad eq_refl) as [-> ->]. auto.
  - intros v Hjson Hv. unfold status_of in Hbad. rewrite Hjson in Hbad.
    destruct v; try (destruct (Hbad eq_refl) as [-> ->]; auto).
    contradiction (Hv d eq_refl).
Qed.

Lemma poll_network_failure_is_fatal_witness :
  let srv := failing_after [status_response 200 "RUNNING"] "connection reset" in
  let out := Ftd.poll_transaction_status (VStr "https://x/status/1") "tok" 300 10 srv [] in
  fst out = Raise (RequestException "connection reset")
  /\ sent_count (snd out) = 2%nat.
Proof.
  intros srv out.
  destruct (poll_network_failure_is_fatal Ftd.poll_transaction_status
              (VStr "https://x/status/1") "tok" 300 10 srv [] (fst out) (snd out)
              [Sent (poll_request (VStr "https://x/status/1") "tok")
                    (Responds (status_response 200 "RUNNING"));
               Printed (OutCurrentStatus (VStr "RUNNING") 1 300);
               Slept 10]
              (poll_request (VStr "https://x/status/1") "tok")
              "connection reset" [])
    as [_ Hres].
  - left; reflexivity.
  - apply surjective_pairing.
  - vm_compute. reflexivity.
  - split; [exact Hres | vm_compute; reflexivity].
Defined.

Lemma poll_malformed_body_is_fatal_witness :
  let page := mkResponse 200 "<html>maintenance</html>" None in
  let srv := scripted [status_response 200 "RUNNING"] page in
  let out := Ftd.poll_transaction_status (VStr "https://x/status/1") "tok" 300 10 srv [] in
  fst out = Raise JSONDecodeError.
Proof.
  intros page srv out.
  destruct (poll_malformed_body_is_fatal Ftd.poll_transaction_status
              (VStr "https://x/status/1") "tok" 300 10 srv [] (fst out) (snd out)
              [Sent (poll_request (VStr "https://x/status/1") "tok")
                    (Responds (status_response 200 "RUNNING"));
               Printed (OutCurrentStatus (VStr "RUNNING") 1 300);
               Slept 10]
              (poll_request (VStr "https://x/status/1") "tok")
              page [])
    as [Hnone _].
  - left; reflexivity.
  - apply surjective_pairing.
  - vm_compute. reflexivity.
  - left; reflexivity.
  - destruct (Hnone eq_refl) as [_ Hres]. exact Hres.
Defined.

(** ** Starting an operation, on every server *)

(** X8: whatever the server answers, starting an onboarding adds exactly
    one event to the trace: one POST to the ZTP path under [base_url],
    with the bearer token and the JSON content type for headers, and a
    JSON object of five members for body: the device name, the serial
    number, the policy, the one licence BASE and the admin password. *)
Theorem onboarding_sends_one_request :
  forall srv t base_url token device_name serial_number access_policy_uuid
         admin_password,
    exists rq payload,
      snd (Ftd.initiate_ftd_onboarding_using_ztp base_url token device_name
             serial_number access_policy_uuid admin_password srv t)
        = t ++ [Sent rq (srv (sent_count t) rq)]
      /\ req_method rq = POST
      /\ req_url rq = VStr (base_url +:+ "/api/rest/v1/inventory/devices/ftds/ztp")
      /\ req_headers rq !! "Authorization" = Some ("Bearer " +:+ token)
      /\ req_headers rq !! "Content-Type" = Some "application/json"
      /\ size (req_headers rq) = 2%nat
      /\ req_json rq = Some (VDict payload)
      /\ payload !! "name" = Some (VStr device_name)
      /\ payload !! "serialNumber" = Some (VStr serial_number)
      /\ payload !! "fmcAccessPolicyUid" = Some (VStr access_policy_uuid)
      /\ payload !! "licenses" = Some (VList [VStr "BASE"])
      /\ payload !! "adminPassword" = Some (VStr admin_password)
      /\ size payload = 5%nat.
Proof.
  intros srv t base_url token device_name serial_number access_policy_uuid
         admin_password.
  unfold Ftd.initiate_ftd_onboarding_using_ztp, requests_post.
  cbv zeta.
  match goal with |- context [send ?r] => set (rq := r) end.
  exists rq. eexists. split.
  - unfold bind, send.
    destruct (srv (sent_count t) rq) as [r | msg]; [| reflexivity].
    destruct (negb (status_code r =? 202)); [reflexivity |].
    unfold response_json. destruct (json r); reflexivity.
  - repeat split; reflexivity.
Qed.

(** X9: whatever the server answers, starting a deletion adds exactly one
    event to the trace: one POST to the delete path of the device under
    [base_url], with the bearer token for only header and no body. *)
Theorem deletion_sends_one_request :
  forall srv t base_url token device_uuid,
    exists rq,
      snd (Ftd.delete_ftd_device base_url token device_uuid srv t)
        = t ++ [Sent rq (srv (sent_count t) rq)]
      /\ req_method rq = POST
      /\ req_url rq
           = VStr (base_url +:+ "/api/rest/v1/inventory/devices/ftds/cdfmcManaged/"
                            +:+ device_uuid +:+ "/delete")
      /\ req_headers rq !! "Authorization" = Some ("Bearer " +:+ token)
      /\ size (req_headers rq) = 1%nat
      /\ req_json rq = None.
Proof.
  intros srv t base_url token device_uuid.
  unfold Ftd.delete_ftd_device, requests_post.
  cbv zeta.
  match goal with |- context [send ?r] => set (rq := r) end.
  exists rq. split.
  - unfold bind, send.
    destruct (srv (sent_count t) rq) as [r | msg]; [| reflexivity].
    destruct (negb (status_code r =? 202)); [reflexivity |].
    unfold response_json. destruct (json r); reflexivity.
  - repeat split; reflexivity.
Qed.

(** ** The process, on every server *)

(** Every way the first half of the [try] block can go. *)
Lemma start_operation_run args op srv :
  exists rq line prefix,
    req_method rq = POST
    /\ Ftd.start_operation args op srv [] =
       match srv 0%nat rq with
       | Fails msg =>
           (Raise (RequestException msg), [Printed line; Sent rq (Fails msg)])
       | Responds r =>
           if status_code r =? 202 then
             match json r with
             | Some body =>
                 (Return body,
                  [Printed line; Sent rq (Responds r); Printed (OutInitialResponse body)])
             | None =>
                 (Raise JSONDecodeError, [Printed line; Sent rq (Responds r)])
             end
           else
             (Raise (CDOError (prefix +:+ text r)), [Printed line; Sent rq (Responds r)])
       end.
Proof.
  destruct op as [device_name serial_number policy_uuid admin_password | device_uuid];
    unfold Ftd.start_operation, Ftd.initiate_ftd_onboarding_using_ztp,
      Ftd.delete_ftd_device, requests_post; cbv zeta;
    match goal with |- context [send ?r] => set (rq := r) end;
    exists rq; do 2 eexists; (split; [reflexivity |]);
    unfold bind, print, send; simpl;
    change (sent_count [Printed ?o]) with 0%nat;
    (destruct (srv 0%nat rq) as [r | msg]; [| reflexivity]);
    (destruct (status_code r =? 202); simpl; [| reflexivity]);
    unfold response_json; destruct (json r); reflexivity.
Qed.

(** Every run of [main] with an operation has one of the shapes of
    [main_shape], around one POST request. *)
Lemma main_run args op srv :
  Ftd.operation args = Some op ->
  exists rq line,
    req_method rq = POST /\ main_shape args srv rq line (Ftd.main args srv []).
Proof.
  intros Hop.
  destruct (start_operation_run args op srv) as (rq & line & prefix & Hpost & Hstart).
  exists rq, line. split; [exact Hpost |].
  unfold Ftd.main. rewrite Hop. unfold Ftd.main_try, bind. rewrite Hstart.
  destruct (srv 0%nat rq) as [r | msg] eqn:Hsrv.
  2: { rewrite <- Hsrv. apply main_not_accepted; rewrite Hsrv.
       - discriminate.
       - intros msg' Hmsg. congruence. }
  destruct (status_code r =? 202) eqn:Hcode.
  2: { rewrite <- Hsrv. apply (main_not_accepted _ _ _ _ (CDOError (prefix +:+ text r)));
         rewrite Hsrv.
       - intros r' Hr'. injection Hr' as <-. left. lia.
       - discriminate. }
  assert (H202 : status_code r = 202) by lia.
  destruct (json r) as [body |] eqn:Hjson.
  2: { rewrite <- Hsrv. apply (main_not_accepted _ _ _ _ JSONDecodeError);
         rewrite Hsrv.
       - intros r' Hr'. injection Hr' as <-. right. auto.
       - discriminate. }
  destruct body as [| b | z | f | str | l | d];
    try solve [simpl; apply (main_no_polling_url args srv rq line r _ AttributeError);
               auto; left; split; first [intros d0; discriminate | reflexivity]].
  simpl.
  destruct (truthy (default VNone (d !! "transactionPollingUrl"))) eqn:Htruthy; simpl.
  2: { apply (main_no_polling_url _ _ _ _ r _ (CDOError "No polling URL in response"));
         auto.
       right. exists d. auto. }
  destruct (d !! "transactionPollingUrl") as [u |] eqn:Hurl; [| discriminate].
  simpl in Htruthy |- *.
  unfold print at 1. rewrite poll_unfold.
  match goal with
  | |- context [for_from _ 0 _ srv ?t1] =>
      destruct (for_from_trace u (Ftd.token args) (Ftd.max_attempts args)
                  (Ftd.delay args) srv (Z.to_nat (Ftd.max_attempts args)) 0 t1)
        as (fres & ext & Hloop & Hshape)
  end.
  rewrite Hloop.
  pose proof (main_polled args srv rq line r d u fres ext
                Hsrv H202 Hjson Hurl Htruthy Hshape) as Hmain.
  destruct fres as [[| [v|]] | e]; simpl in Hmain |- *;
    unfold print; simpl; rewrite <- ?app_assoc; simpl; exact Hmain.
Qed.

Lemma sent_requests_app (t u : trace) :
  sent_requests (t ++ u) = sent_requests t ++ sent_requests u.
Proof. apply omap_app. Qed.

(** X10: when the network fails the request that starts the operation,
    [main] sends nothing else: it prints the network error and the process
    ends with exit code 1. *)
Theorem main_submission_network_failure :
  forall args op srv msg,
    Ftd.operation args = Some op ->
    (forall rq, srv 0%nat rq = Fails msg) ->
    exists rq line,
      req_method rq = POST
      /\ Ftd.main args srv []
         = (1, [Printed line; Sent rq (Fails msg);
                Printed (OutNetworkError (RequestException msg))]).
Proof.
  intros args op srv msg Hop Hsrv.
  destruct (main_run args op srv Hop) as (rq & line & Hpost & Hshape).
  exists rq, line. split; [exact Hpost |].
  inversion Hshape as [e Hresp Hfail Heq | r body e Hr | r d u fres ext Hr];
    try (rewrite Hsrv in Hr; discriminate).
  rewrite (Hfail msg (Hsrv rq)), Hsrv. reflexivity.
Qed.

Lemma main_submission_network_failure_witness :
  let srv := failing_after [] "name resolution failed" in
  fst (Ftd.main (onboard_args 300 10) srv []) = 1
  /\ length (snd (Ftd.main (onboard_args 300 10) srv [])) = 3%nat.
Proof.
  intros srv.
  destruct (main_submission_network_failure (onboard_args 300 10)
              (Ftd.Onboard "fw1" "ABC123" "pol-1" "") srv "name resolution failed")
    as (rq & line & _ & Hmain).
  - reflexivity.
  - intros rq. reflexivity.
  - rewrite Hmain. split; reflexivity.
Defined.

(** X11: when the acknowledgement has status code 202 but its body does
    not decode, or decodes to something other than a JSON object, [main]
    sends nothing after the POST request and the process ends with exit
    code 1. *)
Theorem main_acknowledgement_not_object :
  forall args op srv (r : response),
    Ftd.operation args = Some op ->
    (forall rq, srv 0%nat rq = Responds r) ->
    status_code r = 202 ->
    json r = None \/ (exists v, json r = Some v /\ forall d, v <> VDict d) ->
    exists rq,
      req_method rq = POST
      /\ fst (Ftd.main args srv []) = 1
      /\ sent_requests (snd (Ftd.main args srv [])) = [rq].
Proof.
  intros args op srv r Hop Hsrv Hcode Hbody.
  destruct (main_run args op srv Hop) as (rq & line & Hpost & Hshape).
  exists rq. split; [exact Hpost |].
  inversion Hshape as [e Hresp Hfail Heq | r' body e Hr H202 Hjson Hwhy Heq
                      | r' d u fres ext Hr H202 Hjson Hurl Htruthy Hloop Heq].
  - split; reflexivity.
  - split; reflexivity.
  - exfalso. rewrite Hsrv in Hr. injection Hr as <-.
    destruct Hbody as [Hnone | (v & Hv & Hnot)]; [congruence |].
    rewrite Hjson in Hv. injection Hv as <-. apply (Hnot d). reflexivity.
Qed.

Lemma main_acknowledgement_not_object_witness :
  let srv := scripted [] (mkResponse 202 "Accepted" None) in
  fst (Ftd.main (onboard_args 300 10) srv []) = 1
  /\ length (sent_requests (snd (Ftd.main (onboard_args 300 10) srv []))) = 1%nat.
Proof.
  intros srv.
  destruct (main_acknowledgement_not_object (onboard_args 300 10)
              (Ftd.Onboard "fw1" "ABC123" "pol-1" "") srv
              (mkResponse 202 "Accepted" None))
    as (rq & _ & Hcode & Hreqs).
  - reflexivity.
  - intros rq. reflexivity.
  - reflexivity.
  - left. reflexivity.
  - rewrite Hreqs. split; [exact Hcode | reflexivity].
Defined.

(** X12: a polling URL that is JSON null, false, the number 0, an empty
    array or an empty object is taken as no polling URL: [main] prints
    the error of line 204 last, the process ends with exit code 1, and no
    GET request is sent. *)
Theorem main_false_polling_url :
  forall args op srv (r : response) (d : gmap string value) u,
    Ftd.operation args = Some op ->
    (forall rq, srv 0%nat rq = Responds r) ->
    status_code r = 202 ->
    json r = Some (VDict d) ->
    d !! "transactionPollingUrl" = Some u ->
    In u [VNone; VBool false; VInt 0; VList []; VDict ∅] ->
    fst (Ftd.main args srv []) = 1
    /\ last (snd (Ftd.main args srv []))
       = Some (Printed (OutError "No polling URL in response"))
    /\ gets (snd (Ftd.main args srv [])) = [].
Proof.
  intros args op srv r d u Hop Hsrv Hcode Hbody Hurl Hu.
  destruct (main_falsy_polling_url args op srv r d Hop Hsrv Hcode Hbody)
    as (t' & _ & Hmain & Hgets).
  { rewrite Hurl. simpl in Hu.
    destruct Hu as [<- | [<- | [<- | [<- | [<- | []]]]]]; reflexivity. }
  rewrite Hmain. simpl. rewrite last_snoc. auto.
Qed.

Lemma main_false_polling_url_witness :
  let ack := mkResponse 202 "{...}"
               (Some (VDict {[ "transactionPollingUrl" := VNone ]})) in
  let srv := scripted [] ack in
  fst (Ftd.main (onboard_args 300 10) srv []) = 1
  /\ gets (snd (Ftd.main (onboard_args 300 10) srv [])) = [].
Proof.
  intros ack srv.
  destruct (main_false_polling_url (onboard_args 300 10)
              (Ftd.Onboard "fw1" "ABC123" "pol-1" "") srv ack
              {[ "transactionPollingUrl" := VNone ]} VNone)
    as (Hcode & _ & Hgets).
  - reflexivity.
  - intros rq. reflexivity.
  - reflexivity.
  - reflexivity.
  - reflexivity.
  - left. reflexivity.
  - split; [exact Hcode | exact Hgets].
Defined.

(** X13: in every run with an operation [main] sends exactly one POST
    request, first, and after it only GET requests, at most
    [max_attempts] of them, all to one URL with the token of the command
    line; when there is such a GET, the URL is the [transactionPollingUrl]
    of the body acknowledged with status code 202. *)
Theorem main_posts_once_then_polls :
  forall args op srv,
    Ftd.operation args = Some op ->
    exists rq (k : nat) u,
      req_method rq = POST
      /\ sent_requests (snd (Ftd.main args srv []))
         = rq :: replicate k (poll_request u (Ftd.token args))
      /\ Z.of_nat k <= Z.max 0 (Ftd.max_attempts args)
      /\ ((0 < k)%nat ->
          exists (r : response) (d : gmap string value),
            srv 0%nat rq = Responds r
            /\ status_code r = 202
            /\ json r = Some (VDict d)
            /\ d !! "transactionPollingUrl" = Some u).
Proof.
  intros args op srv Hop.
  destruct (main_run args op srv Hop) as (rq & line & Hpost & Hshape).
  exists rq.
  inversion Hshape as [e Hresp Hfail Heq | r body e Hr H202 Hjson Hwhy Heq
                      | r d u fres ext Hr H202 Hjson Hurl Htruthy Hloop Heq].
  - exists 0%nat, VNone. split; [exact Hpost |]. split; [reflexivity |].
    split; [lia | intros Hk; lia].
  - exists 0%nat, VNone. split; [exact Hpost |]. split; [reflexivity |].
    split; [lia | intros Hk; lia].
  - exists (sent_count ext), u. split; [exact Hpost |].
    destruct (loop_trace_requests _ _ _ _ _ _ _ _ Hloop) as [Hreqs _].
    pose proof (loop_trace_delays _ _ _ _ _ _ _ _ Hloop) as Hcount.
    split; [| split].
    + unfold sent_requests in Hreqs |- *. simpl.
      rewrite omap_app, Hreqs. simpl.
      rewrite app_nil_r. reflexivity.
    + destruct fres as [[|v]|e]; lia.
    + intros _. exists r, d. auto.
Qed.

Lemma main_posts_once_then_polls_witness :
  let srv := scripted [accepted_response "https://x/status/1"]
                      (status_response 200 "RUNNING") in
  exists rq (k : nat) u,
    req_method rq = POST
    /\ sent_requests (snd (Ftd.main (onboard_args 2 10) srv []))
       = rq :: replicate k (poll_request u "tok")
    /\ Z.of_nat k <= 2.
Proof.
  intros srv.
  destruct (main_posts_once_then_polls (onboard_args 2 10)
              (Ftd.Onboard "fw1" "ABC123" "pol-1" "") srv)
    as (rq & k & u & Hpost & Hreqs & Hk & _).
  - reflexivity.
  - exists rq, k, u. split; [exact Hpost |]. split; [exact Hreqs | exact Hk].
Defined.

(** X15: once the operation is acknowledged with status code 202 and a
    body whose [transactionPollingUrl] is [u], [main] polls [u] itself,
    with the token of the command line; when the first polling response
    is final, DONE and ERROR alike, [main] prints the body as final status
    and the process ends with exit code 0 after that one GET and without
    any delay. *)
Theorem main_polls_acknowledged_url :
  forall args op srv (ack r : response) (d : gmap string value) u,
    Ftd.operation args = Some op ->
    (forall rq, srv 0%nat rq = Responds ack) ->
    status_code ack = 202 ->
    json ack = Some (VDict d) ->
    d !! "transactionPollingUrl" = Some u ->
    truthy u = true ->
    1 <= Ftd.max_attempts args ->
    srv 1%nat (poll_request u (Ftd.token args)) = Responds r ->
    finished r ->
    exists body,
      json r = Some body
      /\ fst (Ftd.main args srv []) = 0
      /\ last (snd (Ftd.main args srv [])) = Some (Printed (OutFinalStatus body))
      /\ gets (snd (Ftd.main args srv [])) = [poll_request u (Ftd.token args)]
      /\ delays (snd (Ftd.main args srv [])) = [].
Proof.
  intros args op srv ack r d u Hop Hsrv Hcode Hjson Hurl Htruthy Hbudget Hr
         (Hok & s & Hs & Hterm).
  destruct (start_operation_run args op srv) as (rq & line & prefix & Hpost & Hstart).
  rewrite Hsrv, Hcode, Hjson in Hstart. simpl in Hstart.
  assert (Hbody : exists body, json r = Some body).
  { unfold status_of in Hs. destruct (json r); [eauto | discriminate]. }
  destruct Hbody as [body Hbody]. exists body. split; [exact Hbody |].
  unfold Ftd.main. rewrite Hop. unfold Ftd.main_try, bind. rewrite Hstart.
  simpl. rewrite Hurl. simpl. rewrite Htruthy. simpl.
  unfold print at 1. rewrite poll_unfold.
  replace (Z.to_nat (Ftd.max_attempts args))
    with (S (Z.to_nat (Ftd.max_attempts args) - 1)) by lia.
  rewrite for_from_S.
  match goal with
  | |- context [Ftd.poll_attempt _ _ _ _ 0 srv ?t1] =>
      pose proof (poll_attempt_run u (Ftd.token args) (Ftd.max_attempts args)
                    (Ftd.delay args) srv 0 t1) as Hrun
  end.
  inversion Hrun as [msg H1 Heq | r' H1 H2 Heq | r' e H1 H2 H3 Heq
                    | r' s' H1 H2 H3 H4 Heq | r' s' msg H1 H2 H3 H4 H5 Heq
                    | r' s' H1 H2 H3 H4 H5 Heq];
    match type of H1 with
    | context [sent_count ?l] => change (sent_count l) with 1%nat in H1
    end;
    rewrite Hr in H1; try discriminate; injection H1 as <-; try congruence.
  rewrite Hbody. unfold print. simpl.
  unfold gets, delays. simpl. rewrite Hpost. auto.
Qed.

Lemma main_polls_acknowledged_url_witness :
  let srv := scripted [accepted_response "https://x/status/1"]
                      (status_response 200 "DONE") in
  fst (Ftd.main (onboard_args 300 10) srv []) = 0
  /\ gets (snd (Ftd.main (onboard_args 300 10) srv []))
     = [poll_request (VStr "https://x/status/1") "tok"].
Proof.
  intros srv.
  destruct (main_polls_acknowledged_url (onboard_args 300 10)
              (Ftd.Onboard "fw1" "ABC123" "pol-1" "") srv
              (accepted_response "https://x/status/1")
              (status_response 200 "DONE")
              {[ "transactionPollingUrl" := VStr "https://x/status/1" ]}
              (VStr "https://x/status/1"))
    as (body & _ & Hcode & _ & Hgets & _).
  - reflexivity.
  - intros rq. reflexivity.
  - reflexivity.
  - reflexivity.
  - reflexivity.
  - reflexivity.
  - simpl. lia.
  - reflexivity.
  - split; [reflexivity |]. eexists. split; reflexivity.
  - split; [exact Hcode | exact Hgets].
Defined.



(** * The claims that depend on the delay and on the command line *)

(** ** Delays between attempts *)

Section BetweenAttempts.
Context (polling_url : value) (token : string) (max_attempts delay_seconds : Z).

Local Abbreviation rq := (poll_request polling_url token).
Local Abbreviation shape := (loop_trace polling_url token max_attempts delay_seconds).





End BetweenAttempts.




(** ** A final response within the budget *)




(** ** A response without a status *)




(** ** The exit code of the process *)


Section LoopErrors.
Context (polling_url : value) (token : string) (max_attempts delay_seconds : Z).

Local Abbreviation rq := (poll_request polling_url token).
Local Abbreviation shape := (loop_trace polling_url token max_attempts delay_seconds).




End LoopErrors.




(** X14: exit code 0 means that argparse printed the help text, or that
    the polling ran to its end.  In the second case the last line printed
    is the timeout line, or the final status line with the body the
    polling returned, a JSON object whose [cdoTransactionStatus] is DONE
    or ERROR: a remote ERROR ends the process with exit code 0 as well. *)
Theorem main_exit_zero_after_polling :
  forall cmdline srv,
    fst (Ftd.run cmdline srv []) = 0 ->
    cmdline = Ftd.Help
    \/ last (snd (Ftd.run cmdline srv [])) = Some (Printed OutPollingTimedOut)
    \/ exists d : gmap string value,
         last (snd (Ftd.run cmdline srv [])) = Some (Printed (OutFinalStatus (VDict d)))
         /\ (d !! "cdoTransactionStatus" = Some (VStr "DONE")
             \/ d !! "cdoTransactionStatus" = Some (VStr "ERROR")).
Proof.
  intros [args | |] srv Hzero; [| left; reflexivity | discriminate].
  right. cbn [Ftd.run] in *.
  destruct (Ftd.operation args) as [op |] eqn:Hop.
  2: { unfold Ftd.main in Hzero. rewrite Hop in Hzero. discriminate. }
  destruct (main_run args op srv Hop) as (rq & line & Hpost & Hshape).
  inversion Hshape as [e Hresp Hfail Heq | r body e Hr H202 Hjson Hwhy Heq
                      | r d u fres ext Hr H202 Hjson Hurl Htruthy Hloop Heq];
    rewrite <- Heq in Hzero; try discriminate.
  cbn [fst snd] in *.
  simpl. rewrite !app_comm_cons, last_snoc.
  destruct fres as [[|v]|e]; try discriminate.
  - left. reflexivity.
  - right.
    destruct (loop_trace_returned _ _ _ _ _ _ _ _ v Hloop eq_refl)
      as (_ & _ & d' & -> & _ & _ & _ & Hterm).
    exists d'. split; [reflexivity |].
    apply terminal_true in Hterm.
    destruct (d' !! "cdoTransactionStatus") as [s |]; simpl in Hterm.
    + destruct Hterm as [-> | ->]; auto.
    + destruct Hterm; discriminate.
Qed.

Lemma main_exit_zero_after_polling_witness :
  let srv := scripted [accepted_response "https://x/status/1"]
                      (status_response 200 "ERROR") in
  let out := Ftd.run (Ftd.Namespace (onboard_args 300 10)) srv [] in
  fst out = 0
  /\ exists d : gmap string value,
       last (snd out) = Some (Printed (OutFinalStatus (VDict d)))
       /\ (d !! "cdoTransactionStatus" = Some (VStr "DONE")
           \/ d !! "cdoTransactionStatus" = Some (VStr "ERROR")).
Proof.
  intros srv out.
  assert (Hzero : fst out = 0) by (vm_compute; reflexivity).
  split; [exact Hzero |].
  destruct (main_exit_zero_after_polling (Ftd.Namespace (onboard_args 300 10)) srv Hzero)
    as [Hhelp | [Htimeout | Hfinal]].
  - discriminate Hhelp.
  - exfalso. revert Htimeout. vm_compute. discriminate.
  - exact Hfinal.
Defined.
